(** * lab4.py: a line-oriented blog command interpreter

    Shallow embedding of the in-memory backend of [lab4.py]
    ([MONGODB_AVAILABLE = False]): the store is the dictionary
    [in_memory_db["blogs"]], from blog names to the list of documents of the
    blog in insertion order.  The branches guarded by [MONGODB_AVAILABLE]
    delegate to an external database and are not part of the model.

    Text is [string]; its characters stand for the code points below 256.
    The output of a command is the list of the arguments of its [print]
    calls, one list for [sys.stdout] and one for [sys.stderr]; the bytes
    written are these arguments, each followed by a line feed. *)

From Stdlib Require Import Ascii NArith.
From stdpp Require Import gmap strings list fin_maps sorting.

(** ** The built-ins of Python that the program uses *)

Module Py.

Definition code (c : ascii) : N := N_of_ascii c.

Definition between (lo hi : N) (c : ascii) : bool :=
  (lo <=? code c)%N && (code c <=? hi)%N.

(** The double quote, the tab and the line feed. *)
Definition dquote : ascii := ascii_of_N 34.
Definition tab : ascii := ascii_of_N 9.
Definition newline : ascii := ascii_of_N 10.

(** [str.isspace] on one character. *)
Definition isspace (c : ascii) : bool :=
  between 9 13 c || between 28 32 c || (code c =? 133)%N || (code c =? 160)%N.

(** [str.lower] on one character. *)
Definition lower_char (c : ascii) : ascii :=
  if between 65 90 c || (between 192 222 c && negb (code c =? 215)%N)
  then ascii_of_N (code c + 32) else c.

Fixpoint lower (s : string) : string :=
  match s with
  | EmptyString => EmptyString
  | String c s' => String (lower_char c) (lower s')
  end.

Fixpoint lstrip (p : ascii → bool) (s : string) : string :=
  match s with
  | EmptyString => EmptyString
  | String c s' => if p c then lstrip p s' else s
  end.

Fixpoint rstrip (p : ascii → bool) (s : string) : string :=
  match s with
  | EmptyString => EmptyString
  | String c s' =>
      match rstrip p s' with
      | EmptyString => if p c then EmptyString else String c EmptyString
      | r => String c r
      end
  end.

(** [s.strip()] and [s.strip(chars)] for a one-character [chars]. *)
Definition strip (s : string) : string := rstrip isspace (lstrip isspace s).
Definition strip_char (x : ascii) (s : string) : string :=
  rstrip (Ascii.eqb x) (lstrip (Ascii.eqb x) s).

(** [s.split(sep, maxsplit)] for a one-character separator. *)
Fixpoint split (sep : ascii) (s : string) (maxsplit : nat) {struct s}
  : list string :=
  match maxsplit, s with
  | 0, _ => [s]
  | _, EmptyString => [EmptyString]
  | S n, String c s' =>
      if Ascii.eqb c sep then EmptyString :: split sep s' n
      else match split sep s' maxsplit with
           | [] => [String c EmptyString]
           | w :: ws => String c w :: ws
           end
  end.

(** [s.split(sep)]: no bound on the number of splits. *)
Definition split_all (sep : ascii) (s : string) : list string :=
  split sep s (String.length s).

Global Arguments split sep%_char s maxsplit.
Global Arguments split_all sep%_char s.

(** [sep.join(l)]. *)
Fixpoint join (sep : string) (l : list string) : string :=
  match l with
  | [] => ""
  | [x] => x
  | x :: l' => x +:+ sep +:+ join sep l'
  end.

(** [s * n]. *)
Fixpoint repeat (s : string) (n : nat) : string :=
  match n with
  | 0 => ""
  | S n' => s +:+ repeat s n'
  end.

Fixpoint prefix (t s : string) : bool :=
  match t, s with
  | EmptyString, _ => true
  | String a t', String b s' => Ascii.eqb a b && prefix t' s'
  | String _ _, EmptyString => false
  end.

(** [t in s]: [t] occurs in [s] as a substring. *)
Fixpoint contains (t s : string) : bool :=
  prefix t s ||
  match s with
  | EmptyString => false
  | String _ s' => contains t s'
  end.

(** [l[i]] under a bounds check made by the caller. *)
Definition item (l : list string) (i : nat) : string := nth i l "".

End Py.

(** ** Regular expressions of the program *)

Module Re.

(** The class [[0-9a-zA-Z]]. *)
Definition alnum (c : ascii) : bool :=
  Py.between 48 57 c || Py.between 97 122 c || Py.between 65 90 c.

(** [re.sub('[^0-9a-zA-Z]+', '_', s)]: the scan goes left to right; a
    match starts at the first character outside the class and, the [+]
    being greedy, extends over all the characters outside the class that
    follow.  [in_match] says that the previous character is part of the
    match under way, whose underscore is already written. *)
Fixpoint sub_go (in_match : bool) (s : string) : string :=
  match s with
  | EmptyString => EmptyString
  | String c s' =>
      if alnum c then String c (sub_go false s')
      else if in_match then sub_go true s'
      else String "_"%char (sub_go true s')
  end.

Definition sub_nonalnum (s : string) : string := sub_go false s.

(** A greedy run of characters other than the double quote, then a double
    quote, from the start of [s]: the text before the first double quote
    and the text after it, if there is one. *)
Fixpoint upto_quote (s : string) : option (string * string) :=
  match s with
  | EmptyString => None
  | String c s' =>
      if Ascii.eqb c Py.dquote then Some (EmptyString, s')
      else match upto_quote s' with
           | Some (content, rest) => Some (String c content, rest)
           | None => None
           end
  end.

(** A greedy run of dots: the dot matches every character but the line
    feed. *)
Fixpoint dot_star (s : string) : string :=
  match s with
  | EmptyString => EmptyString
  | String c s' =>
      if Ascii.eqb c Py.newline then EmptyString else String c (dot_star s')
  end.

(** [re.match] of the pattern of [parse_quoted_string] (a double quote,
    group 1 of characters other than the double quote, a double quote,
    group 2 of dots) on [s]: the groups 1 and 2. *)
Definition match_quoted (s : string) : option (string * string) :=
  match s with
  | String c s' =>
      if Ascii.eqb c Py.dquote then
        match upto_quote s' with
        | Some (content, rest) => Some (content, dot_star rest)
        | None => None
        end
      else None
  | EmptyString => None
  end.

End Re.

(** ** Documents and the store *)

Inductive doc_type := post | comment.

Global Instance doc_type_eq_dec : EqDecision doc_type.
Proof. solve_decision. Defined.

(** The name of a type as the string [doc["type"]] holds. *)
Definition type_name (k : doc_type) : string :=
  match k with post => "post" | comment => "comment" end.

(** A document is a dictionary; a key that only some documents have is an
    optional field. *)
Record doc := Doc {
  type : doc_type;
  blogname : string;
  userName : string;
  title : option string;
  body : string;
  permalink : string;
  timestamp : string;
  tags : option (list string);
  parent_permalink : option string;
  deleted_by : option string;
  deleted_at : option string
}.

Global Instance doc_eq_dec : EqDecision doc.
Proof. solve_decision. Defined.

(** [in_memory_db["blogs"]]. *)
Abbreviation store := (gmap string (list doc)).

Record output := Output { stdout : list string; stderr : list string }.

Definition silent : output := Output [] [].
Definition to_stderr (msg : string) : output := Output [] [msg].
Definition to_stdout (lines : list string) : output := Output lines [].

(** The bytes that a list of [print] arguments puts on a stream. *)
Definition stream_bytes (lines : list string) : string :=
  foldr (λ l acc, l +:+ String Py.newline acc) "" lines.

(** ** parse_quoted_string *)

Definition parse_quoted_string (line : string) : string * string :=
  match Re.match_quoted (Py.strip line) with
  | Some (g1, g2) => (g1, Py.strip g2)
  | None => ("", Py.strip line)
  end.

(** ** process_post *)

(** [in_memory_db["blogs"][blogname].append(d)], the list being created when
    the blog is new. *)
Definition append_doc (blog : string) (d : doc) (db : store) : store :=
  <[blog := default [] (db !! blog) ++ [d]]> db.

Definition process_post (line : string) (db : store) : store * output :=
  let parts := Py.split " " line 3 in
  if length parts <? 4 then
    (db, to_stderr "Error: Invalid post command format")
  else
    let blog := Py.item parts 1 in
    let username := Py.strip_char Py.dquote (Py.item parts 2) in
    let rest := Py.item parts 3 in
    let '(title, rest) := parse_quoted_string rest in
    let '(body, rest) := parse_quoted_string rest in
    let '(tags, timestamp) := parse_quoted_string rest in
    let permalink := blog +:+ "." +:+ Re.sub_nonalnum title in
    let new_post :=
      {| type := post; blogname := blog; userName := username;
         title := Some title; body := body; permalink := permalink;
         timestamp := timestamp;
         tags := match tags with
                 | EmptyString => None
                 | _ => Some (Py.strip <$> Py.split_all "," tags)
                 end;
         parent_permalink := None; deleted_by := None; deleted_at := None |} in
    (append_doc blog new_post db, silent).

(** ** process_comment *)

(** The scan of [in_memory_db["blogs"][blogname]] for the first document
    whose permalink is the target: its index and the document. *)
Definition find_permalink (target : string) (docs : list doc)
  : option (nat * doc) :=
  list_find (λ d, permalink d = target) docs.

(** The lookup of the referenced document, in the blog of the command. *)
Definition lookup_parent (blog target : string) (db : store) : option doc :=
  match db !! blog with
  | Some docs => snd <$> find_permalink target docs
  | None => None
  end.

Definition not_found (target : string) : string :=
  "Error: No post or comment found with permalink: " +:+ target.

Definition process_comment (line : string) (db : store) : store * output :=
  let parts := Py.split " " line 3 in
  if length parts <? 4 then
    (db, to_stderr "Error: Invalid comment command format")
  else
    let blog := Py.item parts 1 in
    let target := Py.item parts 2 in
    let rest := Py.join " " (drop 3 parts) in
    let '(username, rest) := parse_quoted_string rest in
    let '(comment_body, timestamp) := parse_quoted_string rest in
    match lookup_parent blog target db with
    | None => (db, to_stderr (not_found target))
    | Some _ =>
        let new_comment :=
          {| type := comment; blogname := blog; userName := username;
             title := None; body := comment_body; permalink := timestamp;
             timestamp := timestamp; tags := None;
             parent_permalink := Some target;
             deleted_by := None; deleted_at := None |} in
        (append_doc blog new_comment db, silent)
    end.

(** ** process_delete *)

(** The three assignments to the keys [body], [deleted_by] and
    [deleted_at] of the document found. *)
Definition mark_deleted (user at_time : string) (d : doc) : doc :=
  {| type := type d; blogname := blogname d; userName := userName d;
     title := title d;
     body := "**" +:+ type_name (type d) +:+ " deleted**";
     permalink := permalink d; timestamp := timestamp d;
     tags := tags d; parent_permalink := parent_permalink d;
     deleted_by := Some user; deleted_at := Some at_time |}.

Definition process_delete (line : string) (db : store) : store * output :=
  let parts := Py.split " " line 4 in
  if length parts <? 5 then
    (db, to_stderr "Error: Invalid delete command format")
  else
    let blog := Py.item parts 1 in
    let target := Py.item parts 2 in
    let username := Py.item parts 3 in
    let at_time := Py.item parts 4 in
    match db !! blog with
    | Some docs =>
        match find_permalink target docs with
        | Some (i, d) =>
            (<[blog := <[i := mark_deleted username at_time d]> docs]> db,
             silent)
        | None => (db, to_stderr (not_found target))
        end
    | None => (db, to_stderr (not_found target))
    end.

(** ** get_posts_and_comments *)

(** [list.sort(key=...)] is a stable sort that compares the keys with [<];
    a stable sort is determined by the order of the keys, and this one
    inserts each element before the first element that is not smaller. *)
Fixpoint sort_insert (key : doc → string) (x : doc) (l : list doc)
  : list doc :=
  match l with
  | [] => [x]
  | y :: l' =>
      if String.ltb (key y) (key x) then y :: sort_insert key x l'
      else x :: y :: l'
  end.

Definition sort_by (key : doc → string) (l : list doc) : list doc :=
  foldr (sort_insert key) [] l.

(** [list.sort(key=..., reverse=True)]: the list is reversed, sorted, and
    reversed again, which keeps elements of equal keys in their order. *)
Definition sort_by_reverse (key : doc → string) (l : list doc) : list doc :=
  reverse (sort_by key (reverse l)).

(** The order of two documents by a key, ascending and descending. *)
Definition ascending (key : doc → string) (x y : doc) : Prop :=
  String.le (key x) (key y).
Definition descending (key : doc → string) (x y : doc) : Prop :=
  String.le (key y) (key x).

(** The loop that fills [comments_by_parent]. *)
Definition group_step (m : gmap (option string) (list doc)) (c : doc)
  : gmap (option string) (list doc) :=
  <[parent_permalink c := default [] (m !! parent_permalink c) ++ [c]]> m.

Definition group_by_parent (comments : list doc)
  : gmap (option string) (list doc) :=
  foldl group_step ∅ comments.

Definition get_posts_and_comments (blog : string) (db : store)
  : list doc * gmap (option string) (list doc) :=
  match db !! blog with
  | None => ([], ∅)
  | Some docs =>
      let posts :=
        sort_by_reverse timestamp (filter (λ d, type d = post) docs) in
      let comments :=
        sort_by timestamp (filter (λ d, type d = comment) docs) in
      (posts, group_by_parent comments)
  end.

(** ** print_comments and process_show *)

Definition TAB : string := String Py.tab "".
Definition NL : string := String Py.newline "".

Definition comment_lines (indent_str : string) (c : doc) : list string :=
  [ "";
    indent_str +:+ "    - - - -";
    indent_str +:+ TAB +:+ "userName: " +:+ userName c;
    indent_str +:+ TAB +:+ "permalink: " +:+ permalink c;
    match deleted_by c with
    | Some _ =>
        indent_str +:+ TAB +:+ "comment:" +:+ NL +:+ indent_str +:+ TAB
          +:+ "  **comment deleted**"
    | None =>
        indent_str +:+ TAB +:+ "comment:" +:+ NL +:+ indent_str +:+ TAB
          +:+ "  " +:+ body c
    end ].

(** The lines of one iteration of a loop after the lines of the iterations
    before it; [None] when one of them does not return. *)
Definition seq_lines (acc : option (list string)) (x : option (list string))
  : option (list string) :=
  match acc, x with
  | Some a, Some b => Some (a ++ b)
  | _, _ => None
  end.

(** [fuel] bounds the depth of the recursion; [None] is a recursion that is
    deeper than [fuel]. *)
Fixpoint print_comments (fuel : nat) (parent : option string)
    (comments_by_parent : gmap (option string) (list doc)) (indent : nat)
  : option (list string) :=
  match fuel with
  | 0 => None
  | S fuel' =>
      let indent_str := Py.repeat "  " indent in
      match comments_by_parent !! parent with
      | None => Some []
      | Some children =>
          foldl (λ acc c,
                   seq_lines acc
                     (seq_lines (Some (comment_lines indent_str c))
                        (print_comments fuel' (Some (permalink c))
                           comments_by_parent (indent + 1))))
                (Some []) children
      end
  end.

(** The lines of a post up to its body, shared by [process_show] and
    [process_find]. *)
Definition post_lines (p : doc) : list string :=
  [ "  - - - -";
    TAB +:+ "title: " +:+ default "" (title p);
    TAB +:+ "userName: " +:+ userName p ]
  ++ match tags p with
     | Some (t :: ts) => [ TAB +:+ "tags: " +:+ Py.join ", " (t :: ts) ]
     | _ => []
     end
  ++ [ TAB +:+ "timestamp: " +:+ timestamp p;
       TAB +:+ "permalink: " +:+ permalink p;
       match deleted_by p with
       | Some _ => TAB +:+ "body:" +:+ NL +:+ TAB +:+ "  **post deleted**"
       | None => TAB +:+ "body:" +:+ NL +:+ TAB +:+ "  " +:+ body p
       end ].

Definition show_post (fuel : nat)
    (comments_by_parent : gmap (option string) (list doc)) (p : doc)
  : option (list string) :=
  seq_lines
    (seq_lines (Some (post_lines p))
       (print_comments fuel (Some (permalink p)) comments_by_parent 1))
    (Some [""]).

Definition process_show (fuel : nat) (line : string) (db : store)
  : option (store * output) :=
  let parts := Py.split " " line 1 in
  if length parts <? 2 then
    Some (db, to_stderr "Error: Invalid show command format")
  else
    let blog := Py.strip (Py.item parts 1) in
    let '(posts, comments_by_parent) := get_posts_and_comments blog db in
    match foldl (λ acc p, seq_lines acc (show_post fuel comments_by_parent p))
                (Some [ "in " +:+ blog +:+ ":"; "" ]) posts with
    | Some lines => Some (db, to_stdout lines)
    | None => None
    end.

(** ** process_find *)

Definition found_in_post (search_string : string) (p : doc) : bool :=
  Py.contains search_string (body p)
  || match tags p with
     | Some ts => existsb (Py.contains search_string) ts
     | None => false
     end.

(** [matching_comments[post_permalink]] when the key is there: the comments
    recorded under the permalink of the post whose body has the search
    string. *)
Definition matching_comments (search_string : string)
    (comments_by_parent : gmap (option string) (list doc)) (p : doc)
  : list doc :=
  match comments_by_parent !! Some (permalink p) with
  | Some children =>
      filter (λ c, Is_true (Py.contains search_string (body c))) children
  | None => []
  end.

(** The lines of a comment under a post in [process_find]: no recursion and
    a fixed indentation. *)
Definition find_comment_lines (c : doc) : list string :=
  [ "";
    "    - - - -";
    TAB +:+ "userName: " +:+ userName c;
    TAB +:+ "permalink: " +:+ permalink c;
    match deleted_by c with
    | Some _ => TAB +:+ "comment:" +:+ NL +:+ TAB +:+ "  **comment deleted**"
    | None => TAB +:+ "comment:" +:+ NL +:+ TAB +:+ "  " +:+ body c
    end ].

(** One iteration of the loop over the posts. *)
Definition find_post (search_string : string)
    (comments_by_parent : gmap (option string) (list doc)) (p : doc)
  : list string :=
  if found_in_post search_string p then
    post_lines p
    ++ concat (find_comment_lines <$>
                 matching_comments search_string comments_by_parent p)
    ++ [ "" ]
  else [].

Definition process_find (line : string) (db : store) : store * output :=
  let parts := Py.split " " line 2 in
  if length parts <? 3 then
    (db, to_stderr "Error: Invalid find command format")
  else
    let blog := Py.item parts 1 in
    let search_string := fst (parse_quoted_string (Py.item parts 2)) in
    let header := [ "in " +:+ blog +:+ ":"; "" ] in
    match db !! blog with
    | None => (db, to_stdout header)
    | Some _ =>
        let '(posts, comments_by_parent) := get_posts_and_comments blog db in
        (db, to_stdout
               (header
                ++ concat (find_post search_string comments_by_parent
                             <$> posts)))
    end.

(** ** main *)

Definition append_output (a b : output) : output :=
  Output (stdout a ++ stdout b) (stderr a ++ stderr b).

(** The body of the loop over the lines of the input; [None] when the
    command does not return. *)
Definition main_step (fuel : nat) (raw : string) (db : store)
  : option (store * output) :=
  let line := Py.strip raw in
  match line with
  | EmptyString => Some (db, silent)
  | _ =>
      let parts := Py.split " " line 1 in
      let command := Py.lower (Py.item parts 0) in
      if decide (command = "post") then Some (process_post line db)
      else if decide (command = "comment") then Some (process_comment line db)
      else if decide (command = "delete") then Some (process_delete line db)
      else if decide (command = "show") then process_show fuel line db
      else if decide (command = "find") then Some (process_find line db)
      else Some (db, to_stderr ("Error: Unknown command: " +:+ command))
  end.

Fixpoint main_loop (fuel : nat) (lines : list string) (db : store)
  : option (store * output) :=
  match lines with
  | [] => Some (db, silent)
  | raw :: lines' =>
      match main_step fuel raw db with
      | Some (db', o) =>
          match main_loop fuel lines' db' with
          | Some (db'', o') => Some (db'', append_output o o')
          | None => None
          end
      | None => None
      end
  end.

(** The stores that a sequence of commands builds from the empty store. *)
Inductive reachable : store → Prop :=
  | reachable_empty : reachable ∅
  | reachable_step fuel raw db db' o :
      reachable db →
      main_step fuel raw db = Some (db', o) →
      reachable db'.

(** ** Substrings, in the words of the specification *)

(** [t] occurs in [s]. *)
Definition substring (t s : string) : Prop :=
  ∃ before after, s = before +:+ t +:+ after.

(** ** The sanitized title, in the words of the specification *)

Module Spec.

(** The maximal runs of a text: consecutive characters are in one run
    when both are inside the class [[0-9a-zA-Z]] or both outside of it.
    A run comes with its side of the class. *)
Fixpoint runs (s : string) : list (bool * string) :=
  match s with
  | EmptyString => []
  | String c s' =>
      match runs s' with
      | (inside, r) :: rest =>
          if Bool.eqb inside (Re.alnum c) then (inside, String c r) :: rest
          else (Re.alnum c, String c "") :: (inside, r) :: rest
      | [] => [(Re.alnum c, String c "")]
      end
  end.

(** Every run outside the class becomes one underscore, the other runs
    stay. *)
Definition replace_run (run : bool * string) : string :=
  if fst run then snd run else "_".

Definition glue (pieces : list string) : string :=
  foldr (λ r acc, r +:+ acc) "" pieces.

Definition sanitize (s : string) : string :=
  glue (replace_run <$> runs s).

(** All the characters of [r] are on one side of the class. *)
Fixpoint all_on_side (side : bool) (r : string) : Prop :=
  match r with
  | EmptyString => True
  | String c r' => Re.alnum c = side ∧ all_on_side side r'
  end.

End Spec.

(** ** Threads whose comments have fresh permalinks *)

(** Every comment of the list answers a document that comes before it, and
    no document that comes before it has its permalink. *)
Definition fresh_thread (docs : list doc) : Prop :=
  ∀ i c,
    docs !! i = Some c → type c = comment →
    (∃ j d, j < i ∧ docs !! j = Some d
            ∧ parent_permalink c = Some (permalink d))
    ∧ ∀ j d, j < i → docs !! j = Some d → permalink d ≠ permalink c.

Definition threaded (db : store) : Prop :=
  ∀ blog docs, db !! blog = Some docs → fresh_thread docs.

(** The comments that answer [parent] are at index [k] or later. *)
Definition answers_from (docs : list doc) (k : nat) (parent : string) : Prop :=
  ∀ i c,
    docs !! i = Some c → type c = comment →
    parent_permalink c = Some parent → k ≤ i.

(** ** Blocks of the output of the show command *)

(** [x] is in [out], in one piece. *)
Definition segment (x out : list string) : Prop :=
  ∃ before after, out = before ++ x ++ after.

(** The lines of a document itself: those of a post, or those of a comment
    at a level of indentation. *)
Definition head_lines (indent : nat) (d : doc) : list string :=
  match type d with
  | post => post_lines d
  | comment => comment_lines (Py.repeat "  " indent) d
  end.

(** [lines] has the block of [d]: its own lines at the level [indent] and
    then its replies, rendered one level deeper. *)
Definition rendered (comments_by_parent : gmap (option string) (list doc))
    (lines : list string) (indent : nat) (d : doc) (replies : list string)
  : Prop :=
  (∃ fuel, print_comments fuel (Some (permalink d)) comments_by_parent
             (indent + 1) = Some replies)
  ∧ segment (head_lines indent d ++ replies) lines.

(** ** Fields of a command line and sample command lines *)

(** [line.split(' ', maxsplit)[i]]. *)
Definition field (maxsplit i : nat) (line : string) : string :=
  Py.item (Py.split " " line maxsplit) i.

(** The command of an input line, as [main] reads it, and the blog that a
    show command names. *)
Definition command (raw : string) : string :=
  Py.lower (field 1 0 (Py.strip raw)).
Definition show_blog (raw : string) : string :=
  Py.strip (field 1 1 (Py.strip raw)).

(** The timestamp that [process_comment] reads from a line. *)
Definition comment_timestamp (line : string) : string :=
  snd (parse_quoted_string
         (snd (parse_quoted_string
                 (Py.join " " (drop 3 (Py.split " " line 3)))))).

(** The timestamp of a comment line is the permalink of no document of
    the blog of the line. *)
Definition fresh_timestamp (line : string) (db : store) : Prop :=
  ∀ docs d,
    db !! field 3 1 line = Some docs → d ∈ docs →
    permalink d ≠ comment_timestamp line.

(** The stores that a sequence of commands builds from the empty store when
    every comment command comes with a fresh timestamp. *)
Inductive reachable_fresh : store → Prop :=
  | reachable_fresh_empty : reachable_fresh ∅
  | reachable_fresh_step fuel raw db db' o :
      reachable_fresh db →
      (command raw = "comment" → fresh_timestamp (Py.strip raw) db) →
      main_step fuel raw db = Some (db', o) →
      reachable_fresh db'.

(** [s] between double quotes. *)
Definition quoted (s : string) : string :=
  String Py.dquote (s +:+ String Py.dquote "").

Module Sample.

Definition post_hello : string :=
  "post blog1 " +:+ quoted "alice" +:+ " " +:+ quoted "Hello World"
    +:+ " " +:+ quoted "First post" +:+ " " +:+ quoted "" +:+ " 1000".

Definition comment_nice : string :=
  "comment blog1 blog1.Hello_World " +:+ quoted "bob" +:+ " "
    +:+ quoted "Nice!" +:+ " 1001".

Definition comment_thanks : string :=
  "comment blog1 1001 " +:+ quoted "alice" +:+ " " +:+ quoted "Thanks"
    +:+ " 1002".

Definition delete_hello : string :=
  "delete blog1 blog1.Hello_World alice 1003".

Definition comment_nope : string :=
  "comment blog1 nope " +:+ quoted "bob" +:+ " " +:+ quoted "Nice!"
    +:+ " 1001".

Definition comment_other_blog : string :=
  "comment blog2 blog1.Hello_World " +:+ quoted "bob" +:+ " "
    +:+ quoted "Nice!" +:+ " 1001".

Definition delete_other_blog : string :=
  "delete blog2 blog1.Hello_World alice 1003".

Definition hello : doc :=
  {| type := post; blogname := "blog1"; userName := "alice";
     title := Some "Hello World"; body := "First post";
     permalink := "blog1.Hello_World"; timestamp := "1000";
     tags := None; parent_permalink := None;
     deleted_by := None; deleted_at := None |}.

Definition nice : doc :=
  {| type := comment; blogname := "blog1"; userName := "bob";
     title := None; body := "Nice!"; permalink := "1001";
     timestamp := "1001"; tags := None;
     parent_permalink := Some "blog1.Hello_World";
     deleted_by := None; deleted_at := None |}.

Definition thanks : doc :=
  {| type := comment; blogname := "blog1"; userName := "alice";
     title := None; body := "Thanks"; permalink := "1002";
     timestamp := "1002"; tags := None; parent_permalink := Some "1001";
     deleted_by := None; deleted_at := None |}.

Definition find_nice : string := "find blog1 " +:+ quoted "Nice".

Definition show_blog1 : string := "show blog1".
Definition show_blog1_again : string := "  SHOW blog1  ".

(** A comment on the post whose timestamp is the permalink of the post,
    and a later comment on the same post. *)
Definition comment_self : string :=
  "comment blog1 blog1.Hello_World " +:+ quoted "bob" +:+ " "
    +:+ quoted "Nice!" +:+ " blog1.Hello_World".

Definition comment_late : string :=
  "comment blog1 blog1.Hello_World " +:+ quoted "carol" +:+ " "
    +:+ quoted "Me too" +:+ " c".

Definition self : doc :=
  {| type := comment; blogname := "blog1"; userName := "bob";
     title := None; body := "Nice!"; permalink := "blog1.Hello_World";
     timestamp := "blog1.Hello_World"; tags := None;
     parent_permalink := Some "blog1.Hello_World";
     deleted_by := None; deleted_at := None |}.

Definition late : doc :=
  {| type := comment; blogname := "blog1"; userName := "carol";
     title := None; body := "Me too"; permalink := "c";
     timestamp := "c"; tags := None;
     parent_permalink := Some "blog1.Hello_World";
     deleted_by := None; deleted_at := None |}.

(** The store after [post_hello]. *)
Definition db1 : store := fst (process_post post_hello ∅).

(** The store after [post_hello] and [comment_nice]. *)
Definition db2 : store := fst (process_comment comment_nice db1).

(** The store after [post_hello] and [comment_self]. *)
Definition db_self : store := fst (process_comment comment_self db1).

(** The store after [post_hello], [comment_self] and [comment_late]. *)
Definition db_late : store := fst (process_comment comment_late db_self).

(** The store after [post_hello], [comment_nice] and [comment_thanks]. *)
Definition db3 : store :=
  fst (process_comment comment_thanks
         (fst (process_comment comment_nice db1))).

End Sample.

(** ** Texts without a character, and command lines built from their fields *)

(** [c] does not occur in [s]. *)
Fixpoint free_of (c : ascii) (s : string) : Prop :=
  match s with
  | EmptyString => True
  | String a s' => a ≠ c ∧ free_of c s'
  end.

(** The lines of the three commands that write, from their fields. *)
Definition post_line (blog user title body tags at_time : string) : string :=
  "post " +:+ blog +:+ " " +:+ quoted user +:+ " " +:+ quoted title +:+ " "
    +:+ quoted body +:+ " " +:+ quoted tags +:+ " " +:+ at_time.

Definition comment_line (blog target user body at_time : string) : string :=
  "comment " +:+ blog +:+ " " +:+ target +:+ " " +:+ quoted user +:+ " "
    +:+ quoted body +:+ " " +:+ at_time.

Definition delete_line (blog target user at_time : string) : string :=
  "delete " +:+ blog +:+ " " +:+ target +:+ " " +:+ user +:+ " " +:+ at_time.

(** A post line whose user name has a space. *)
Definition post_spaced_user_line : string :=
  "post blog1 " +:+ quoted "al ice" +:+ " " +:+ quoted "Title" +:+ " "
    +:+ quoted "Body" +:+ " " +:+ quoted "" +:+ " 1000".

(** The number of occurrences of [c] in [s]. *)
Fixpoint count_char (c : ascii) (s : string) : nat :=
  match s with
  | EmptyString => 0
  | String a s' => (if Ascii.eqb a c then 1 else 0) + count_char c s'
  end.

(** Every comment line of the run comes, at its point of the run, with a
    timestamp that is the permalink of no document of its blog. *)
Fixpoint fresh_run (lines : list string) (db : store) : Prop :=
  match lines with
  | [] => True
  | raw :: rest =>
      (command raw = "comment" → fresh_timestamp (Py.strip raw) db)
      ∧ ∀ fuel db' o,
          main_step fuel raw db = Some (db', o) → fresh_run rest db'
  end.

(** ** How the store grows *)

(** [d'] is [d] after some commands: the same document, whose body and
    deletion stamp alone may have changed, and only by a deletion. *)
Definition same_document (d d' : doc) : Prop :=
  type d' = type d ∧ blogname d' = blogname d ∧ userName d' = userName d
  ∧ title d' = title d ∧ permalink d' = permalink d
  ∧ timestamp d' = timestamp d ∧ tags d' = tags d
  ∧ parent_permalink d' = parent_permalink d
  ∧ (is_Some (deleted_by d) → is_Some (deleted_by d'))
  ∧ (body d' = body d ∨ is_Some (deleted_by d')).

(** [db'] has every blog of [db], and every document of [db] at its place. *)
Definition grows (db db' : store) : Prop :=
  ∀ blog docs,
    db !! blog = Some docs →
    ∃ docs',
      db' !! blog = Some docs'
      ∧ length docs ≤ length docs'
      ∧ ∀ i d, docs !! i = Some d →
               ∃ d', docs' !! i = Some d' ∧ same_document d d'.

(** ** The documents of the stores that commands build *)

(** The shape of a document of the blog [blog]. *)
Definition well_formed (blog : string) (d : doc) : Prop :=
  blogname d = blog
  ∧ match type d with
    | post =>
        (∃ t, title d = Some t ∧ free_of Py.dquote t
              ∧ permalink d = blog +:+ "." +:+ Re.sub_nonalnum t)
        ∧ parent_permalink d = None
        ∧ tags d ≠ Some []
    | comment =>
        title d = None ∧ tags d = None
        ∧ permalink d = timestamp d
        ∧ is_Some (parent_permalink d)
    end
  ∧ Py.strip (timestamp d) = timestamp d
  ∧ free_of Py.dquote (body d)
  ∧ (is_Some (deleted_by d) ↔ is_Some (deleted_at d))
  ∧ (is_Some (deleted_by d) →
     body d = "**" +:+ type_name (type d) +:+ " deleted**").

(** Every comment of the list answers a document that comes before it. *)
Definition answers_earlier (docs : list doc) : Prop :=
  ∀ i c,
    docs !! i = Some c → type c = comment →
    ∃ j d, j < i ∧ docs !! j = Some d
           ∧ parent_permalink c = Some (permalink d).

Definition sound (db : store) : Prop :=
  ∀ blog docs,
    db !! blog = Some docs →
    docs ≠ []
    ∧ (∀ d, d ∈ docs → well_formed blog d)
    ∧ answers_earlier docs.

(** * Properties *)

(** ** Strings *)

Lemma append_nil_l (s : string) : "" +:+ s = s.
Proof. reflexivity. Qed.

Lemma append_cons (c : ascii) (s t : string) :
  String c s +:+ t = String c (s +:+ t).
Proof. reflexivity. Qed.

Lemma append_nil_r (s : string) : s +:+ "" = s.
Proof. induction s as [|c s IH]; [done|]. by rewrite append_cons, IH. Qed.

Lemma append_assoc (s t u : string) : (s +:+ t) +:+ u = s +:+ t +:+ u.
Proof.
  induction s as [|c s IH]; [done|]. by rewrite !append_cons, IH.
Qed.

(** ** The runs of a text and the substitution of the program *)

Section sanitize.

(** The runs of a text are its pieces, in order. *)
Lemma runs_glue (s : string) : Spec.glue (snd <$> Spec.runs s) = s.
Proof.
  induction s as [|c s IH]; [done|]. simpl.
  destruct (Spec.runs s) as [|[inside r] rest]; [by simplify_eq/=|].
  destruct (Bool.eqb inside (Re.alnum c)); simpl in *;
    rewrite ?append_cons, ?append_nil_l; by f_equal.
Qed.

(** A text that starts with [c] has a first run that starts with [c], on
    the side of [c]. *)
Lemma runs_head (c : ascii) (s : string) :
  ∃ r rest, Spec.runs (String c s) = (Re.alnum c, String c r) :: rest.
Proof.
  simpl. destruct (Spec.runs s) as [|[inside r] rest]; [by eauto|].
  destruct (Bool.eqb inside (Re.alnum c)) eqn:E; [|by eauto].
  apply Bool.eqb_prop in E as ->. eauto.
Qed.

(** Two runs that follow each other are on different sides of the class:
    the runs are maximal. *)
Lemma runs_alternate (s : string) (pre : list (bool * string))
    (a b : bool) (r1 r2 : string) (post : list (bool * string)) :
  Spec.runs s = pre ++ (a, r1) :: (b, r2) :: post → a ≠ b.
Proof.
  revert pre a b r1 r2 post.
  induction s as [|c s IH]; intros pre a b r1 r2 post; simpl.
  { by destruct pre. }
  destruct (Spec.runs s) as [|[inside r] rest] eqn:Hs.
  { by destruct pre as [|? [|]]. }
  destruct (Bool.eqb inside (Re.alnum c)) eqn:E.
  - destruct pre as [|x pre]; simpl; intros H; simplify_eq.
    + by apply (IH [] _ _ r r2 post).
    + by apply (IH ((inside, r) :: pre) _ _ r1 r2 post).
  - destruct pre as [|x pre]; simpl; intros H; simplify_eq.
    + intros Heq. apply Bool.eqb_false_iff in E. congruence.
    + by apply (IH pre _ _ r1 r2 post).
Qed.

(** Every character of a run is on the side of the run, and no run is
    empty. *)
Lemma runs_homogeneous (s : string) (side : bool) (r : string) :
  (side, r) ∈ Spec.runs s → r ≠ "" ∧ Spec.all_on_side side r.
Proof.
  revert side r. induction s as [|c s IH]; intros side r; simpl.
  { by intros ?%elem_of_nil. }
  destruct (Spec.runs s) as [|[inside r0] rest] eqn:Hs.
  { intros ?%list_elem_of_singleton. by simplify_eq. }
  destruct (Bool.eqb inside (Re.alnum c)) eqn:E.
  - apply Bool.eqb_prop in E.
    intros [?|?]%elem_of_cons; [simplify_eq|].
    + split; [done|]. split; [done|]. apply IH. left.
    + apply IH. by right.
  - intros [?|?]%elem_of_cons; [by simplify_eq|]. by apply IH.
Qed.

Lemma sanitize_alnum (c : ascii) (s : string) :
  Re.alnum c = true → Spec.sanitize (String c s) = String c (Spec.sanitize s).
Proof.
  intros Hc. unfold Spec.sanitize. simpl.
  destruct (Spec.runs s) as [|[inside r] rest]; simpl.
  { by rewrite Hc. }
  rewrite Hc. destruct inside; simpl; by rewrite ?Hc.
Qed.

Lemma sanitize_outside_outside (c a : ascii) (s : string) :
  Re.alnum c = false → Re.alnum a = false →
  Spec.sanitize (String c (String a s)) = Spec.sanitize (String a s).
Proof.
  intros Hc Ha. unfold Spec.sanitize.
  destruct (runs_head a s) as (r & rest & Hr).
  change (Spec.runs (String c (String a s))) with
    (match Spec.runs (String a s) with
     | (inside, r) :: rest =>
         if Bool.eqb inside (Re.alnum c) then (inside, String c r) :: rest
         else (Re.alnum c, String c "") :: (inside, r) :: rest
     | [] => [(Re.alnum c, String c "")]
     end).
  by rewrite Hr, Ha, Hc.
Qed.

Lemma sanitize_outside_end (c : ascii) :
  Re.alnum c = false → Spec.sanitize (String c "") = "_".
Proof. intros Hc. unfold Spec.sanitize. simpl. by rewrite Hc. Qed.

Lemma sanitize_outside_alnum (c a : ascii) (s : string) :
  Re.alnum c = false → Re.alnum a = true →
  Spec.sanitize (String c (String a s))
  = String "_" (Spec.sanitize (String a s)).
Proof.
  intros Hc Ha. unfold Spec.sanitize.
  destruct (runs_head a s) as (r & rest & Hr).
  change (Spec.runs (String c (String a s))) with
    (match Spec.runs (String a s) with
     | (inside, r) :: rest =>
         if Bool.eqb inside (Re.alnum c) then (inside, String c r) :: rest
         else (Re.alnum c, String c "") :: (inside, r) :: rest
     | [] => [(Re.alnum c, String c "")]
     end).
  by rewrite Hr, Ha, Hc.
Qed.

Lemma sub_go_sanitize (s : string) :
  Re.sub_go false s = Spec.sanitize s
  ∧ ∀ c, Re.alnum c = false →
      Spec.sanitize (String c s) = String "_" (Re.sub_go true s).
Proof.
  induction s as [|a s [IH1 IH2]].
  { split; [done|]. intros c Hc. by rewrite sanitize_outside_end. }
  split.
  - simpl. destruct (Re.alnum a) eqn:Ha.
    + by rewrite sanitize_alnum, IH1.
    + by rewrite IH2.
  - intros c Hc. simpl. destruct (Re.alnum a) eqn:Ha.
    + by rewrite sanitize_outside_alnum, sanitize_alnum, IH1.
    + by rewrite sanitize_outside_outside, IH2.
Qed.

(** The substitution of the program replaces every maximal run outside the
    class by one underscore. *)
Lemma sub_nonalnum_sanitize (s : string) :
  Re.sub_nonalnum s = Spec.sanitize s.
Proof. apply sub_go_sanitize. Qed.

End sanitize.

(** ** process_post *)

(** C1: a post command of at least four fields appends to its blog one post
    whose permalink is the blog name, a dot, and the title with every
    maximal run of characters outside the class of digits and letters
    replaced by one underscore. *)
Theorem post_permalink_sanitized (line : string) (db : store) :
  4 ≤ length (Py.split " " line 3) →
  ∃ p : doc,
    process_post line db = (append_doc (blogname p) p db, silent)
    ∧ type p = post
    ∧ blogname p = field 3 1 line
    ∧ title p = Some (fst (parse_quoted_string (field 3 3 line)))
    ∧ permalink p
      = blogname p +:+ "." +:+ Spec.sanitize (default "" (title p)).
Proof.
  intros Hlen. unfold process_post, field.
  destruct (Nat.ltb_spec (length (Py.split " " line 3)) 4) as [?|_]; [lia|].
  destruct (parse_quoted_string (Py.item (Py.split " " line 3) 3))
    as [title1 rest1].
  destruct (parse_quoted_string rest1) as [body1 rest2].
  destruct (parse_quoted_string rest2) as [tags1 timestamp1].
  match goal with |- context [append_doc _ ?d db] => exists d end.
  split; [reflexivity|]. simpl.
  by rewrite sub_nonalnum_sanitize.
Qed.

Lemma post_permalink_sanitized_witness :
  4 ≤ length (Py.split " " Sample.post_hello 3)
  ∧ ∃ p : doc,
      process_post Sample.post_hello ∅ = (append_doc (blogname p) p ∅, silent)
      ∧ type p = post
      ∧ blogname p = field 3 1 Sample.post_hello
      ∧ title p = Some (fst (parse_quoted_string (field 3 3 Sample.post_hello)))
      ∧ permalink p
        = blogname p +:+ "." +:+ Spec.sanitize (default "" (title p)).
Proof.
  assert (H : 4 ≤ length (Py.split " " Sample.post_hello 3))
    by (vm_compute; lia).
  split; [exact H|]. exact (post_permalink_sanitized Sample.post_hello ∅ H).
Defined.

(** ** process_comment and process_delete: the lookup of the target *)

Lemma find_permalink_None (target : string) (docs : list doc) :
  find_permalink target docs = None ↔ ∀ d, d ∈ docs → permalink d ≠ target.
Proof.
  unfold find_permalink. rewrite list_find_None, Forall_forall. done.
Qed.

Lemma find_permalink_Some (target : string) (docs : list doc) (i : nat)
    (d : doc) :
  find_permalink target docs = Some (i, d)
  ↔ docs !! i = Some d ∧ permalink d = target
    ∧ ∀ j y, docs !! j = Some y → j < i → permalink y ≠ target.
Proof. unfold find_permalink. by rewrite list_find_Some. Qed.

Lemma lookup_parent_None (blog target : string) (db : store) :
  lookup_parent blog target db = None
  ↔ ∀ docs d, db !! blog = Some docs → d ∈ docs → permalink d ≠ target.
Proof.
  unfold lookup_parent. destruct (db !! blog) as [docs|] eqn:Hb.
  - rewrite fmap_None, find_permalink_None. naive_solver.
  - naive_solver.
Qed.

(** A comment command whose lookup fails changes nothing and reports the
    missing permalink. *)
Lemma process_comment_rejected (line : string) (db : store) :
  4 ≤ length (Py.split " " line 3) →
  lookup_parent (field 3 1 line) (field 3 2 line) db = None →
  process_comment line db = (db, to_stderr (not_found (field 3 2 line))).
Proof.
  intros Hlen Hnone. unfold process_comment.
  destruct (Nat.ltb_spec (length (Py.split " " line 3)) 4) as [?|_]; [lia|].
  destruct (parse_quoted_string _) as [username rest].
  destruct (parse_quoted_string rest) as [comment_body timestamp1].
  unfold field in Hnone. by rewrite Hnone.
Qed.

(** A comment command always reports at most one error, and one that
    reports an error changes nothing. *)
Lemma process_comment_malformed (line : string) (db : store) :
  length (Py.split " " line 3) < 4 →
  process_comment line db
  = (db, to_stderr "Error: Invalid comment command format").
Proof.
  intros Hlen. unfold process_comment.
  by destruct (Nat.ltb_spec (length (Py.split " " line 3)) 4) as [_|?]; [|lia].
Qed.

(** A delete command whose lookup fails changes nothing and reports the
    missing permalink. *)
Lemma process_delete_rejected (line : string) (db : store) :
  5 ≤ length (Py.split " " line 4) →
  lookup_parent (field 4 1 line) (field 4 2 line) db = None →
  process_delete line db = (db, to_stderr (not_found (field 4 2 line))).
Proof.
  intros Hlen Hnone. unfold process_delete.
  destruct (Nat.ltb_spec (length (Py.split " " line 4)) 5) as [?|_]; [lia|].
  unfold lookup_parent, field in Hnone.
  destruct (db !! Py.item (Py.split " " line 4) 1) as [docs|]; [|done].
  apply fmap_None in Hnone. by rewrite Hnone.
Qed.

(** C3: a comment command whose target is the permalink of no document of
    the store leaves the store as it is, prints nothing, and reports one
    error, which names the target when the command has its four fields. *)
Theorem comment_unresolved_no_mutation (line : string) (db : store) :
  (∀ blog docs d, db !! blog = Some docs → d ∈ docs →
     permalink d ≠ field 3 2 line) →
  fst (process_comment line db) = db
  ∧ stdout (snd (process_comment line db)) = []
  ∧ length (stderr (snd (process_comment line db))) = 1
  ∧ (4 ≤ length (Py.split " " line 3) →
     stderr (snd (process_comment line db)) = [not_found (field 3 2 line)]).
Proof.
  intros Habsent.
  destruct (decide (4 ≤ length (Py.split " " line 3))) as [Hlen|Hlen].
  - rewrite process_comment_rejected; [done..|].
    apply lookup_parent_None. eauto.
  - rewrite process_comment_malformed by lia. repeat split; [done..|lia].
Qed.

(** C10: the lookup of a comment or delete command reads the blog of the
    command only.  When no document of that blog has the target permalink
    the command changes nothing and reports the target as not found,
    whatever the other blogs hold. *)
Theorem resolution_scoped_to_blog (db : store) :
  (∀ line,
     4 ≤ length (Py.split " " line 3) →
     (∀ docs d, db !! field 3 1 line = Some docs → d ∈ docs →
        permalink d ≠ field 3 2 line) →
     process_comment line db = (db, to_stderr (not_found (field 3 2 line))))
  ∧ (∀ line,
       5 ≤ length (Py.split " " line 4) →
       (∀ docs d, db !! field 4 1 line = Some docs → d ∈ docs →
          permalink d ≠ field 4 2 line) →
       process_delete line db
       = (db, to_stderr (not_found (field 4 2 line)))).
Proof.
  split; intros line Hlen Habsent.
  - apply process_comment_rejected; [done|]. by apply lookup_parent_None.
  - apply process_delete_rejected; [done|]. by apply lookup_parent_None.
Qed.

(** ** process_delete *)

(** C4: a delete command whose target is found at index [i] of its blog
    replaces that document by one that differs in the body, which becomes
    the marker of the type of the document, and in [deleted_by] and
    [deleted_at], which become the user and the timestamp of the command.
    The other documents of the blog and the other blogs stay as they are,
    and nothing is printed. *)
Theorem delete_marks_only_target (line : string) (db : store)
    (docs : list doc) (i : nat) (d : doc) :
  5 ≤ length (Py.split " " line 4) →
  db !! field 4 1 line = Some docs →
  docs !! i = Some d →
  permalink d = field 4 2 line →
  (∀ j y, docs !! j = Some y → j < i → permalink y ≠ field 4 2 line) →
  ∃ (d' : doc) (docs' : list doc),
    process_delete line db = (<[field 4 1 line := docs']> db, silent)
    ∧ length docs' = length docs
    ∧ docs' !! i = Some d'
    ∧ (∀ j, j ≠ i → docs' !! j = docs !! j)
    ∧ (∀ blog, blog ≠ field 4 1 line →
         fst (process_delete line db) !! blog = db !! blog)
    ∧ body d' = match type d with
                | post => "**post deleted**"
                | comment => "**comment deleted**"
                end
    ∧ deleted_by d' = Some (field 4 3 line)
    ∧ deleted_at d' = Some (field 4 4 line)
    ∧ type d' = type d
    ∧ blogname d' = blogname d
    ∧ userName d' = userName d
    ∧ title d' = title d
    ∧ permalink d' = permalink d
    ∧ timestamp d' = timestamp d
    ∧ tags d' = tags d
    ∧ parent_permalink d' = parent_permalink d.
Proof.
  intros Hlen Hblog Hi Hperm Hfirst.
  assert (Hfind : find_permalink (field 4 2 line) docs = Some (i, d))
    by by apply find_permalink_Some.
  assert (Hrun : process_delete line db
            = (<[field 4 1 line :=
                   <[i := mark_deleted (field 4 3 line) (field 4 4 line) d]>
                     docs]> db, silent)).
  { unfold process_delete.
    destruct (Nat.ltb_spec (length (Py.split " " line 4)) 5) as [?|_]; [lia|].
    unfold field in *. by rewrite Hblog, Hfind. }
  exists (mark_deleted (field 4 3 line) (field 4 4 line) d).
  eexists. split; [exact Hrun|].
  split; [by rewrite length_insert|].
  split; [apply list_lookup_insert_eq; by eapply lookup_lt_Some|].
  split; [intros j Hj; by apply list_lookup_insert_ne|].
  split; [intros blog Hne; rewrite Hrun; simpl; by rewrite lookup_insert_ne|].
  split; [by destruct d as [[] ? ? ? ? ? ? ? ? ? ?]|].
  done.
Qed.

(** ** The sample stores *)

Lemma db1_eq : Sample.db1 = {[ "blog1" := [Sample.hello] ]}.
Proof. vm_compute. reflexivity. Qed.

Lemma db3_eq :
  Sample.db3 = {[ "blog1" := [Sample.hello; Sample.nice; Sample.thanks] ]}.
Proof. vm_compute. reflexivity. Qed.

Lemma comment_unresolved_no_mutation_witness :
  fst (process_comment Sample.comment_nope Sample.db1) = Sample.db1
  ∧ stdout (snd (process_comment Sample.comment_nope Sample.db1)) = []
  ∧ length (stderr (snd (process_comment Sample.comment_nope Sample.db1))) = 1
  ∧ (4 ≤ length (Py.split " " Sample.comment_nope 3) →
     stderr (snd (process_comment Sample.comment_nope Sample.db1))
     = [not_found (field 3 2 Sample.comment_nope)]).
Proof.
  apply (comment_unresolved_no_mutation Sample.comment_nope Sample.db1).
  intros blog docs d. rewrite db1_eq.
  intros [_ <-]%lookup_singleton_Some ->%list_elem_of_singleton.
  vm_compute. discriminate.
Defined.

Lemma resolution_scoped_to_blog_witness :
  (∃ d, Sample.db1 !! "blog1" = Some [d]
        ∧ permalink d = field 3 2 Sample.comment_other_blog
        ∧ permalink d = field 4 2 Sample.delete_other_blog)
  ∧ process_comment Sample.comment_other_blog Sample.db1
    = (Sample.db1, to_stderr (not_found "blog1.Hello_World"))
  ∧ process_delete Sample.delete_other_blog Sample.db1
    = (Sample.db1, to_stderr (not_found "blog1.Hello_World")).
Proof.
  split; [exists Sample.hello; by vm_compute|].
  destruct (resolution_scoped_to_blog Sample.db1) as [Hcomment Hdelete].
  split.
  - apply (Hcomment Sample.comment_other_blog); [vm_compute; lia|].
    intros docs d. rewrite db1_eq.
    intros [[=] _]%lookup_singleton_Some.
  - apply (Hdelete Sample.delete_other_blog); [vm_compute; lia|].
    intros docs d. rewrite db1_eq.
    intros [[=] _]%lookup_singleton_Some.
Defined.

Lemma delete_marks_only_target_witness :
  ∃ (d' : doc) (docs' : list doc),
    process_delete Sample.delete_hello Sample.db3
    = (<["blog1" := docs']> Sample.db3, silent)
    ∧ docs' = [d'; Sample.nice; Sample.thanks]
    ∧ body d' = "**post deleted**"
    ∧ deleted_by d' = Some "alice"
    ∧ deleted_at d' = Some "1003"
    ∧ title d' = Some "Hello World"
    ∧ permalink d' = "blog1.Hello_World".
Proof.
  destruct (delete_marks_only_target Sample.delete_hello Sample.db3
              [Sample.hello; Sample.nice; Sample.thanks] 0 Sample.hello)
    as (d' & docs' & Hrun & Hlen & H0 & Hrest & _ & Hbody & Hby & Hat & _ & _
        & _ & Htitle & Hperm & _).
  - vm_compute. lia.
  - rewrite db3_eq. reflexivity.
  - reflexivity.
  - reflexivity.
  - intros j y _ Hj. lia.
  - exists d', docs'. split; [exact Hrun|].
    split; [|by rewrite Hbody, Hby, Hat, Htitle, Hperm].
    destruct docs' as [|x [|y [|z [|]]]]; simplify_eq/=.
    pose proof (Hrest 1 ltac:(lia)) as H1. pose proof (Hrest 2 ltac:(lia)) as H2.
    by simplify_eq/=.
Defined.

(** ** Sorting *)

Section sorting.

Context (key : doc → string).

Lemma ltb_false_le (a b : string) : String.ltb a b = false → String.le b a.
Proof.
  unfold String.ltb, String.le, String.leb.
  rewrite (String.compare_antisym a b).
  by destruct (String.compare b a).
Qed.

Lemma ltb_true_le (a b : string) :
  String.ltb a b = true → String.le a b ∧ a ≠ b.
Proof.
  unfold String.ltb, String.le, String.leb.
  destruct (String.compare a b) eqn:E; try done.
  intros _. split; [done|]. intros ->.
  assert (String.compare b b = Eq) as Hbb; [|congruence].
  clear E. induction b as [|c b IH]; [done|]. simpl.
  unfold Ascii.compare. by rewrite N.compare_refl.
Qed.

Lemma sort_insert_elem_of (x y : doc) (l : list doc) :
  y ∈ sort_insert key x l ↔ y = x ∨ y ∈ l.
Proof.
  induction l as [|z l IH]; simpl.
  { rewrite list_elem_of_singleton, elem_of_nil. tauto. }
  destruct (String.ltb (key z) (key x)).
  - rewrite !elem_of_cons, IH. tauto.
  - rewrite !elem_of_cons. tauto.
Qed.

Lemma sort_insert_sorted (x : doc) (l : list doc) :
  StronglySorted (ascending key) l → StronglySorted (ascending key) (sort_insert key x l).
Proof.
  induction 1 as [|z l Hl IH Hz]; simpl.
  { repeat constructor. }
  destruct (String.ltb (key z) (key x)) eqn:E.
  - constructor; [done|]. apply Forall_forall. intros y Hy.
    apply sort_insert_elem_of in Hy as [->|Hy].
    + by apply ltb_true_le in E as [? _].
    + by eapply Forall_forall in Hz.
  - apply ltb_false_le in E.
    constructor; [by constructor|]. constructor; [done|].
    eapply Forall_impl; [exact Hz|]. intros y Hy.
    unfold ascending in *. by etrans.
Qed.

Lemma sort_by_sorted (l : list doc) : StronglySorted (ascending key) (sort_by key l).
Proof.
  induction l as [|x l IH]; simpl; [constructor|].
  by apply sort_insert_sorted.
Qed.

(** Insertion keeps the elements of each key in their order. *)
Lemma sort_insert_stable (t : string) (x : doc) (l : list doc) :
  filter (λ d, key d = t) (sort_insert key x l)
  = filter (λ d, key d = t) (x :: l).
Proof.
  induction l as [|y l IH]; simpl; [done|].
  destruct (String.ltb (key y) (key x)) eqn:E; [|done].
  apply ltb_true_le in E as [_ Hne].
  rewrite (filter_cons _ y), IH, !filter_cons.
  repeat case_decide; congruence.
Qed.

Lemma sort_by_stable (t : string) (l : list doc) :
  filter (λ d, key d = t) (sort_by key l) = filter (λ d, key d = t) l.
Proof.
  induction l as [|x l IH]; simpl; [done|].
  by rewrite sort_insert_stable, !filter_cons, IH.
Qed.

Lemma sort_by_reverse_stable (t : string) (l : list doc) :
  filter (λ d, key d = t) (sort_by_reverse key l)
  = filter (λ d, key d = t) l.
Proof.
  unfold sort_by_reverse.
  by rewrite filter_reverse, sort_by_stable, filter_reverse,
    reverse_involutive.
Qed.

Lemma StronglySorted_reverse (R : relation doc) (l : list doc) :
  StronglySorted R l → StronglySorted (flip R) (reverse l).
Proof.
  induction 1 as [|x l Hl IH Hx]; [constructor|].
  rewrite reverse_cons. apply StronglySorted_app_2; [|done|repeat constructor].
  intros y z Hy ->%list_elem_of_singleton.
  rewrite elem_of_reverse in Hy. rewrite Forall_forall in Hx.
  by apply Hx.
Qed.

Lemma sort_by_reverse_sorted (l : list doc) :
  StronglySorted (descending key) (sort_by_reverse key l).
Proof. apply (StronglySorted_reverse (ascending key)), sort_by_sorted. Qed.

Lemma sort_by_perm (l : list doc) : sort_by key l ≡ₚ l.
Proof.
  induction l as [|x l IH]; simpl; [done|]. rewrite <-IH at 2.
  generalize (sort_by key l). clear. intros l.
  induction l as [|y l IH]; simpl; [done|].
  destruct (String.ltb (key y) (key x)); [|done].
  by rewrite IH, Permutation_swap.
Qed.

Lemma sort_by_reverse_perm (l : list doc) : sort_by_reverse key l ≡ₚ l.
Proof.
  unfold sort_by_reverse.
  by rewrite reverse_Permutation, sort_by_perm, reverse_Permutation.
Qed.

End sorting.

(** ** get_posts_and_comments *)

Lemma StronglySorted_filter (R : relation doc) (P : doc → Prop)
    `{!∀ x, Decision (P x)} (l : list doc) :
  StronglySorted R l → StronglySorted R (filter P l).
Proof.
  induction 1 as [|x l Hl IH Hx]; [constructor|].
  rewrite filter_cons. case_decide; [|done].
  constructor; [done|]. rewrite Forall_forall in Hx |- *.
  intros y [_ Hy]%list_elem_of_filter. by apply Hx.
Qed.

(** The group of a parent after the loop over [comments]: the comments of
    that parent, in the order of [comments], after the group it had. *)
Lemma foldl_group_step_lookup (m : gmap (option string) (list doc))
    (comments : list doc) (parent : option string) :
  foldl group_step m comments !! parent
  = match filter (λ c, parent_permalink c = parent) comments with
    | [] => m !! parent
    | g => Some (default [] (m !! parent) ++ g)
    end.
Proof.
  revert m. induction comments as [|c comments IH]; intros m; simpl; [done|].
  rewrite IH, filter_cons. unfold group_step at 1 2.
  destruct (decide (parent_permalink c = parent)) as [->|Hne].
  - rewrite lookup_insert_eq. simpl.
    destruct (filter _ comments); [done|]. by rewrite <-app_assoc.
  - by rewrite lookup_insert_ne.
Qed.

Lemma group_by_parent_lookup (comments : list doc) (parent : option string)
    (group : list doc) :
  group_by_parent comments !! parent = Some group
  → group = filter (λ c, parent_permalink c = parent) comments ∧ group ≠ [].
Proof.
  unfold group_by_parent. rewrite foldl_group_step_lookup, lookup_empty.
  destruct (filter _ comments); [done|]. simpl. by intros [= <-].
Qed.



(** ** process_find *)

Lemma prefix_spec (t s : string) :
  Py.prefix t s = true ↔ ∃ after, s = t +:+ after.
Proof.
  revert s. induction t as [|a t IH]; intros s; simpl.
  { split; [intros _; by exists s|done]. }
  destruct s as [|b s].
  { split; [done|]. by intros [after ?]. }
  rewrite andb_true_iff, Ascii.eqb_eq, IH. split.
  - intros [-> [after ->]]. by exists after.
  - intros [after Heq]. rewrite append_cons in Heq. simplify_eq. eauto.
Qed.

(** [t in s] of the program is the occurrence of [t] in [s]. *)
Lemma contains_spec (t s : string) :
  Py.contains t s = true ↔ substring t s.
Proof.
  unfold substring. split.
  - induction s as [|c s IH]; simpl; rewrite orb_true_iff.
    + intros [[after ->]%prefix_spec|?]; [|done]. by exists "", after.
    + intros [[after ->]%prefix_spec|Hs]; [by exists "", after|].
      destruct (IH Hs) as (before & after & ->).
      by exists (String c before), after.
  - intros (before & after & ->).
    induction before as [|c before IH].
    + rewrite append_nil_l.
      assert (Py.prefix t (t +:+ after) = true) as Hp
        by (apply prefix_spec; eauto).
      destruct (t +:+ after); simpl; by rewrite Hp.
    + rewrite append_cons. simpl. rewrite IH. apply orb_true_r.
Qed.

Lemma found_in_post_spec (search_string : string) (p : doc) :
  found_in_post search_string p = true
  ↔ substring search_string (body p)
    ∨ ∃ tag, tag ∈ default [] (tags p) ∧ substring search_string tag.
Proof.
  unfold found_in_post. rewrite orb_true_iff, contains_spec.
  destruct (tags p) as [ts|]; simpl.
  - rewrite existsb_exists. setoid_rewrite contains_spec.
    setoid_rewrite <-list_elem_of_In. done.
  - split; [intros [?|?]; [by left|done]|].
    intros [?|(tag & []%elem_of_nil & _)]. by left.
Qed.

(** C6: a find command of at least three fields prints the header and then,
    post by post in the order of the thread, the lines of [find_post]; for
    a post whose body and tags lack the search string these lines are none,
    whatever its comments hold.  The store stays as it is. *)
Theorem find_skips_unmatched_posts (line : string) (db : store) :
  3 ≤ length (Py.split " " line 2) →
  ∃ posts comments_by_parent,
    get_posts_and_comments (field 2 1 line) db = (posts, comments_by_parent)
    ∧ process_find line db
      = (db, to_stdout
               ([ "in " +:+ field 2 1 line +:+ ":"; "" ]
                ++ concat
                     (find_post (fst (parse_quoted_string (field 2 2 line)))
                        comments_by_parent <$> posts)))
    ∧ ∀ p,
        p ∈ posts →
        ¬ substring (fst (parse_quoted_string (field 2 2 line))) (body p) →
        (∀ tag, tag ∈ default [] (tags p) →
           ¬ substring (fst (parse_quoted_string (field 2 2 line))) tag) →
        find_post (fst (parse_quoted_string (field 2 2 line)))
          comments_by_parent p = [].
Proof.
  intros Hlen.
  destruct (get_posts_and_comments (field 2 1 line) db)
    as [posts comments_by_parent] eqn:Hthread.
  exists posts, comments_by_parent. split; [done|]. split.
  - unfold process_find.
    destruct (Nat.ltb_spec (length (Py.split " " line 2)) 3) as [?|_]; [lia|].
    unfold field in *. rewrite Hthread.
    destruct (db !! Py.item (Py.split " " line 2) 1) eqn:Hblog; [done|].
    unfold get_posts_and_comments in Hthread. rewrite Hblog in Hthread.
    by simplify_eq.
  - intros p _ Hbody Htags. unfold find_post.
    destruct (found_in_post _ p) eqn:Hfound; [|done].
    apply found_in_post_spec in Hfound as [?|(tag & ? & ?)]; [done|].
    by destruct (Htags tag).
Qed.

Lemma find_skips_unmatched_posts_witness :
  3 ≤ length (Py.split " " Sample.find_nice 2)
  ∧ ∃ posts comments_by_parent,
      get_posts_and_comments (field 2 1 Sample.find_nice) Sample.db2
      = (posts, comments_by_parent)
      ∧ process_find Sample.find_nice Sample.db2
        = (Sample.db2,
           to_stdout
             ([ "in " +:+ field 2 1 Sample.find_nice +:+ ":"; "" ]
              ++ concat
                   (find_post
                      (fst (parse_quoted_string (field 2 2 Sample.find_nice)))
                      comments_by_parent <$> posts)))
      ∧ ∀ p,
          p ∈ posts →
          ¬ substring
              (fst (parse_quoted_string (field 2 2 Sample.find_nice)))
              (body p) →
          (∀ tag, tag ∈ default [] (tags p) →
             ¬ substring
                 (fst (parse_quoted_string (field 2 2 Sample.find_nice)))
                 tag) →
          find_post (fst (parse_quoted_string (field 2 2 Sample.find_nice)))
            comments_by_parent p = [].
Proof.
  assert (H : 3 ≤ length (Py.split " " Sample.find_nice 2))
    by (vm_compute; lia).
  split; [exact H|].
  exact (find_skips_unmatched_posts Sample.find_nice Sample.db2 H).
Defined.

Lemma db2_eq : Sample.db2 = {[ "blog1" := [Sample.hello; Sample.nice] ]}.
Proof. vm_compute. reflexivity. Qed.

(** C7, at the store of a post and one comment whose body has the search
    string while the post has it neither in its body nor in its tags: the
    find command prints the header and nothing else, so the comment is not
    rendered at all. *)
Theorem find_drops_comment_of_unmatched_post :
  Sample.db2 !! "blog1" = Some [Sample.hello; Sample.nice]
  ∧ parent_permalink Sample.nice = Some (permalink Sample.hello)
  ∧ substring "Nice" (body Sample.nice)
  ∧ found_in_post "Nice" Sample.hello = false
  ∧ fst (parse_quoted_string (field 2 2 Sample.find_nice)) = "Nice"
  ∧ process_find Sample.find_nice Sample.db2
    = (Sample.db2, to_stdout [ "in blog1:"; "" ]).
Proof.
  split; [by rewrite db2_eq|].
  split; [done|].
  split; [by apply contains_spec|].
  split; [done|].
  split; [by vm_compute|].
  rewrite db2_eq. by vm_compute.
Qed.

(** ** print_comments and process_show *)

Lemma foldl_seq_lines_None {A} (f : A → option (list string)) (l : list A) :
  foldl (λ acc x, seq_lines acc (f x)) None l = None.
Proof. induction l as [|x l IH]; simpl; [done|]. exact IH. Qed.

(** A loop one of whose iterations does not return does not return. *)
Lemma foldl_seq_lines_stuck {A} (f : A → option (list string))
    (acc : option (list string)) (l : list A) (x : A) :
  x ∈ l → f x = None → foldl (λ acc x, seq_lines acc (f x)) acc l = None.
Proof.
  revert acc. induction l as [|y l IH]; intros acc; [by intros ?%elem_of_nil|].
  intros [->|Hx]%elem_of_cons Hnone; simpl.
  - rewrite Hnone. destruct acc; apply foldl_seq_lines_None.
  - by apply IH.
Qed.

(** A comment whose permalink is the permalink of its parent is rendered
    under itself: the recursion is deeper than any bound. *)
Lemma print_comments_self_parent
    (comments_by_parent : gmap (option string) (list doc))
    (children : list doc) (c : doc) :
  comments_by_parent !! Some (permalink c) = Some children →
  c ∈ children →
  ∀ fuel indent,
    print_comments fuel (Some (permalink c)) comments_by_parent indent = None.
Proof.
  intros Hlookup Hc fuel.
  induction fuel as [|fuel IH]; intros indent; simpl; [done|].
  rewrite Hlookup.
  apply (foldl_seq_lines_stuck
           (λ c, seq_lines
                   (Some (comment_lines (Py.repeat "  " indent) c))
                   (print_comments fuel (Some (permalink c))
                      comments_by_parent (indent + 1))) _ _ c); [done|].
  by rewrite IH.
Qed.

Lemma process_show_stuck (fuel : nat) (line : string) (db : store)
    (posts : list doc) (comments_by_parent : gmap (option string) (list doc))
    (p : doc) :
  2 ≤ length (Py.split " " line 1) →
  get_posts_and_comments (Py.strip (field 1 1 line)) db
  = (posts, comments_by_parent) →
  p ∈ posts →
  print_comments fuel (Some (permalink p)) comments_by_parent 1 = None →
  process_show fuel line db = None.
Proof.
  intros Hlen Hthread Hp Hnone. unfold process_show.
  destruct (Nat.ltb_spec (length (Py.split " " line 1)) 2) as [?|_]; [lia|].
  unfold field in Hthread. rewrite Hthread.
  rewrite (foldl_seq_lines_stuck (show_post fuel comments_by_parent) _ _ p);
    [done..|].
  unfold show_post. by rewrite Hnone.
Qed.

(** The show command reads the store and returns it as it is. *)
Lemma process_show_store (fuel : nat) (line : string) (db db' : store)
    (o : output) :
  process_show fuel line db = Some (db', o) → db' = db.
Proof.
  unfold process_show. destruct (_ <? _); [by intros [= <- _]|].
  destruct (get_posts_and_comments _ db) as [posts comments_by_parent].
  destruct (foldl _ _ posts); [by intros [= <- _]|done].
Qed.

(** Two show commands for one blog have one outcome on one store. *)
Lemma process_show_same_blog (fuel : nat) (line1 line2 : string) (db : store) :
  2 ≤ length (Py.split " " line1 1) →
  2 ≤ length (Py.split " " line2 1) →
  Py.strip (field 1 1 line1) = Py.strip (field 1 1 line2) →
  process_show fuel line1 db = process_show fuel line2 db.
Proof.
  intros Hlen1 Hlen2 Hblog. unfold process_show.
  destruct (Nat.ltb_spec (length (Py.split " " line1 1)) 2) as [?|_]; [lia|].
  destruct (Nat.ltb_spec (length (Py.split " " line2 1)) 2) as [?|_]; [lia|].
  unfold field in Hblog. by rewrite Hblog.
Qed.

(** A line whose command is [show] is handed to [process_show]. *)
Lemma main_step_show (fuel : nat) (raw : string) (db : store) :
  command raw = "show" →
  main_step fuel raw db = process_show fuel (Py.strip raw) db.
Proof.
  unfold command, field, main_step. intros Hcmd.
  destruct (Py.strip raw) as [|c line] eqn:Hline; [done|].
  rewrite Hcmd. done.
Qed.

(** C9: two show commands of one blog that follow each other give the same
    output, byte for byte, and leave the store as it is; when the first one
    does not return, neither does the second on the same store. *)
Theorem show_twice_identical (fuel : nat) (raw1 raw2 : string) (db : store) :
  command raw1 = "show" →
  command raw2 = "show" →
  2 ≤ length (Py.split " " (Py.strip raw1) 1) →
  2 ≤ length (Py.split " " (Py.strip raw2) 1) →
  show_blog raw1 = show_blog raw2 →
  main_step fuel raw2 db = main_step fuel raw1 db
  ∧ ∀ db1 o1,
      main_step fuel raw1 db = Some (db1, o1) →
      db1 = db
      ∧ main_loop fuel [raw1; raw2] db = Some (db, append_output o1 o1)
      ∧ stream_bytes (stdout (append_output o1 o1))
        = stream_bytes (stdout o1) +:+ stream_bytes (stdout o1).
Proof.
  intros Hcmd1 Hcmd2 Hlen1 Hlen2 Hblog.
  rewrite !main_step_show by done.
  pose proof (process_show_same_blog fuel _ _ db Hlen1 Hlen2 Hblog) as Hsame.
  split; [done|]. intros db1 o1 Hrun.
  pose proof (process_show_store _ _ _ _ _ Hrun) as ->.
  split; [done|]. split.
  - simpl. rewrite (main_step_show _ raw1), Hrun by done. cbv beta iota.
    rewrite (main_step_show _ raw2), <-Hsame, Hrun by done.
    by destruct o1 as [out err]; unfold append_output; simpl;
      rewrite !app_nil_r.
  - simpl. generalize (stdout o1) at 1 3. intros l.
    induction l as [|x l IH]; simpl; [done|].
    by rewrite append_assoc, append_cons, IH.
Qed.

Lemma show_twice_identical_witness :
  ∃ o1,
    main_step 10 Sample.show_blog1 Sample.db3 = Some (Sample.db3, o1)
    ∧ main_step 10 Sample.show_blog1_again Sample.db3
      = main_step 10 Sample.show_blog1 Sample.db3
    ∧ main_loop 10 [Sample.show_blog1; Sample.show_blog1_again] Sample.db3
      = Some (Sample.db3, append_output o1 o1).
Proof.
  destruct (main_step 10 Sample.show_blog1 Sample.db3) as [[db1 o1]|] eqn:Hrun;
    [|by vm_compute in Hrun].
  destruct (show_twice_identical 10 Sample.show_blog1 Sample.show_blog1_again
              Sample.db3) as [Hsame Hboth].
  - by vm_compute.
  - by vm_compute.
  - vm_compute. lia.
  - vm_compute. lia.
  - by vm_compute.
  - destruct (Hboth db1 o1 Hrun) as (-> & Hloop & _).
    exists o1. by rewrite Hsame, Hrun.
Defined.

(** ** Comments whose timestamp is a permalink of the blog *)

(** A comment command whose target is found appends one comment to the blog
    of the command; its permalink is its timestamp and its parent is the
    target. *)
Lemma process_comment_accepted (line : string) (db : store) (parent : doc) :
  4 ≤ length (Py.split " " line 3) →
  lookup_parent (field 3 1 line) (field 3 2 line) db = Some parent →
  ∃ c : doc,
    process_comment line db = (append_doc (field 3 1 line) c db, silent)
    ∧ type c = comment
    ∧ blogname c = field 3 1 line
    ∧ permalink c = timestamp c
    ∧ timestamp c = comment_timestamp line
    ∧ parent_permalink c = Some (field 3 2 line).
Proof.
  intros Hlen Hparent. unfold process_comment, comment_timestamp.
  destruct (Nat.ltb_spec (length (Py.split " " line 3)) 4) as [?|_]; [lia|].
  destruct (parse_quoted_string _) as [username rest]. cbn [snd].
  destruct (parse_quoted_string rest) as [comment_body timestamp1].
  unfold field in *. rewrite Hparent.
  match goal with |- context [append_doc _ ?d db] => exists d end.
  by repeat split.
Qed.

(** ** Threads whose comments have fresh permalinks: the show command returns *)

Lemma foldl_seq_lines_Some {A} (f : A → option (list string))
    (acc : option (list string)) (l : list A) :
  is_Some acc → (∀ x, x ∈ l → is_Some (f x)) →
  is_Some (foldl (λ acc x, seq_lines acc (f x)) acc l).
Proof.
  revert acc. induction l as [|x l IH]; intros acc Hacc Hall; simpl; [done|].
  apply IH.
  - destruct Hacc as [a ->]. destruct (Hall x) as [b ->]; [by left|]. by eexists.
  - intros y Hy. apply Hall. by right.
Qed.

(** The groups of [comments_by_parent] hold comments of the blog that answer
    the key of the group. *)
Lemma group_members (docs : list doc) (parent : option string)
    (children : list doc) (c : doc) :
  group_by_parent (sort_by timestamp (filter (λ d, type d = comment) docs))
    !! parent = Some children →
  c ∈ children →
  c ∈ docs ∧ type c = comment ∧ parent_permalink c = parent.
Proof.
  intros [-> _]%group_by_parent_lookup [Hparent Hc]%list_elem_of_filter.
  rewrite sort_by_perm in Hc. apply list_elem_of_filter in Hc as [? ?]. done.
Qed.

(** In a fresh thread the answers to a comment come after the comment. *)
Lemma fresh_thread_answers_after (docs : list doc) (i : nat) (c : doc) :
  fresh_thread docs → docs !! i = Some c → type c = comment →
  answers_from docs (S i) (permalink c).
Proof.
  intros Hfresh Hi Hc i' c' Hi' Hc' Hparent.
  destruct (Hfresh i' c' Hi' Hc') as [(j & d & Hj & Hd & Hpd) _].
  destruct (Hfresh i c Hi Hc) as [_ Hnew].
  destruct (decide (j < i)) as [Hlt|Hge]; [|lia].
  destruct (Hnew j d Hlt Hd). congruence.
Qed.

Lemma print_comments_returns (docs : list doc) :
  fresh_thread docs →
  ∀ fuel k parent indent,
    answers_from docs k parent → k ≤ length docs → length docs < fuel + k →
    is_Some
      (print_comments fuel (Some parent)
         (group_by_parent
            (sort_by timestamp (filter (λ d, type d = comment) docs)))
         indent).
Proof.
  intros Hfresh fuel.
  induction fuel as [|fuel IH]; intros k parent indent Hfrom Hk Hfuel;
    [lia|].
  simpl. destruct (_ !! Some parent) as [children|] eqn:Hgroup; [|by eexists].
  apply foldl_seq_lines_Some; [by eexists|]. intros c Hc.
  destruct (group_members _ _ _ _ Hgroup Hc) as (Hdocs & Htype & Hparent).
  apply list_elem_of_lookup in Hdocs as [i Hi].
  pose proof (Hfrom i c Hi Htype Hparent) as Hki.
  pose proof (lookup_lt_Some _ _ _ Hi) as Hlen.
  destruct (IH (S i) (permalink c) (indent + 1)) as [lines ->];
    [by apply fresh_thread_answers_after|lia|lia|].
  by eexists.
Qed.

(** On a store whose threads are fresh, a show command returns with a bound
    on the depth of one more than the number of documents of the blog. *)
Lemma process_show_returns (line : string) (db : store) :
  threaded db →
  ∃ fuel o, process_show fuel line db = Some (db, o).
Proof.
  intros Hdb.
  exists (S (length (default [] (db !! Py.strip (field 1 1 line))))).
  unfold process_show, field.
  destruct (_ <? _); [by eexists|].
  unfold get_posts_and_comments.
  destruct (db !! Py.strip _) as [docs|] eqn:Hblog; simpl default.
  - match goal with
    | |- context [foldl ?f ?acc ?posts] =>
        destruct (foldl_seq_lines_Some
                    (show_post (S (length docs))
                       (group_by_parent
                          (sort_by timestamp
                             (filter (λ d, type d = comment) docs))))
                    acc posts) as [lines Hlines]
    end.
    + by eexists.
    + intros p _. unfold show_post.
      destruct (print_comments_returns docs (Hdb _ _ Hblog) (S (length docs))
                  0 (permalink p) 1) as [sub ->]; [|lia|lia|by eexists].
      intros i c _ _ _. lia.
    + rewrite Hlines. by eexists.
  - by eexists.
Qed.

(** ** The commands keep the threads fresh *)

Lemma fresh_thread_nil : fresh_thread [].
Proof. intros i c Hi. by rewrite lookup_nil in Hi. Qed.

Lemma fresh_thread_snoc_post (docs : list doc) (p : doc) :
  fresh_thread docs → type p = post → fresh_thread (docs ++ [p]).
Proof.
  intros Hfresh Hp i c Hi Hc.
  assert (docs !! i = Some c) as Hi'.
  { apply lookup_app_Some in Hi as [?|[_ Hlast]]; [done|].
    apply list_lookup_singleton_Some in Hlast as [_ <-]. congruence. }
  pose proof (lookup_lt_Some _ _ _ Hi') as Hlen.
  destruct (Hfresh i c Hi' Hc) as [(j & d & Hj & Hd & Hpd) Hnew]. split.
  - exists j, d. by rewrite lookup_app_l by lia.
  - intros j' d' Hj'. rewrite lookup_app_l by lia. by apply Hnew.
Qed.

Lemma fresh_thread_snoc_comment (docs : list doc) (c parent : doc) :
  fresh_thread docs →
  parent ∈ docs →
  parent_permalink c = Some (permalink parent) →
  (∀ d, d ∈ docs → permalink d ≠ permalink c) →
  fresh_thread (docs ++ [c]).
Proof.
  intros Hfresh Hparent Hpc Hnew i c' Hi Hc'.
  apply lookup_app_Some in Hi as [Hi|[Hge Hlast]].
  - pose proof (lookup_lt_Some _ _ _ Hi) as Hlen.
    destruct (Hfresh i c' Hi Hc') as [(j & d & Hj & Hd & Hpd) Hnew']. split.
    + exists j, d. by rewrite lookup_app_l by lia.
    + intros j' d' Hj'. rewrite lookup_app_l by lia. by apply Hnew'.
  - apply list_lookup_singleton_Some in Hlast as [Hi <-].
    assert (i = length docs) as -> by lia. split.
    + apply list_elem_of_lookup in Hparent as [j Hj].
      pose proof (lookup_lt_Some _ _ _ Hj).
      exists j, parent. by rewrite lookup_app_l by lia.
    + intros j d Hj. rewrite lookup_app_l by lia.
      intros Hd. apply Hnew. by eapply list_elem_of_lookup_2.
Qed.

Lemma fresh_thread_mark_deleted (docs : list doc) (i : nat) (d : doc)
    (user at_time : string) :
  fresh_thread docs → docs !! i = Some d →
  fresh_thread (<[i := mark_deleted user at_time d]> docs).
Proof.
  intros Hfresh Hd.
  assert (Hlookup : ∀ j x,
            <[i := mark_deleted user at_time d]> docs !! j = Some x →
            ∃ y, docs !! j = Some y ∧ type x = type y
                 ∧ permalink x = permalink y
                 ∧ parent_permalink x = parent_permalink y).
  { intros j x. destruct (decide (i = j)) as [<-|Hne].
    - rewrite list_lookup_insert_eq by by eapply lookup_lt_Some.
      intros [= <-]. by exists d.
    - rewrite list_lookup_insert_ne by done. intros ?. by exists x. }
  assert (Hback : ∀ j y,
            docs !! j = Some y →
            ∃ x, <[i := mark_deleted user at_time d]> docs !! j = Some x
                 ∧ permalink x = permalink y).
  { intros j y Hy. destruct (decide (i = j)) as [<-|Hne].
    - rewrite list_lookup_insert_eq by by eapply lookup_lt_Some.
      exists (mark_deleted user at_time d). by simplify_eq.
    - rewrite list_lookup_insert_ne by done. by exists y. }
  intros j c Hj Hc.
  destruct (Hlookup j c Hj) as (c0 & Hc0 & Htype & Hperm & Hpar).
  destruct (Hfresh j c0 Hc0 ltac:(congruence))
    as [(k & p & Hk & Hp & Hpp) Hnew]. split.
  - destruct (Hback k p Hp) as (p' & Hp' & Hperm').
    exists k, p'. split; [done|]. split; [done|]. congruence.
  - intros m x Hm Hx.
    destruct (Hlookup m x Hx) as (x0 & Hx0 & _ & Hpermx & _).
    rewrite Hpermx, Hperm. by eapply Hnew.
Qed.

Lemma threaded_empty : threaded ∅.
Proof. intros blog docs Hb. by rewrite lookup_empty in Hb. Qed.

Lemma threaded_insert (blog : string) (docs : list doc) (db : store) :
  threaded db → fresh_thread docs → threaded (<[blog := docs]> db).
Proof.
  intros Hdb Hdocs blog' docs'. destruct (decide (blog = blog')) as [<-|Hne].
  - rewrite lookup_insert_eq. by intros [= <-].
  - rewrite lookup_insert_ne by done. apply Hdb.
Qed.

Lemma threaded_default (blog : string) (db : store) :
  threaded db → fresh_thread (default [] (db !! blog)).
Proof.
  intros Hdb. destruct (db !! blog) as [docs|] eqn:Hb; simpl.
  - by eapply Hdb.
  - apply fresh_thread_nil.
Qed.

(** What a post command does to the store. *)
Lemma process_post_cases (line : string) (db : store) :
  fst (process_post line db) = db
  ∨ ∃ p, type p = post
         ∧ fst (process_post line db) = append_doc (field 3 1 line) p db.
Proof.
  unfold process_post, field. destruct (_ <? _); [by left|].
  destruct (parse_quoted_string _) as [title1 rest1].
  destruct (parse_quoted_string rest1) as [body1 rest2].
  destruct (parse_quoted_string rest2) as [tags1 timestamp1].
  right. eexists. split; [|reflexivity]. done.
Qed.

Lemma process_post_threaded (line : string) (db : store) :
  threaded db → threaded (fst (process_post line db)).
Proof.
  intros Hdb. destruct (process_post_cases line db) as [->|(p & Hp & ->)];
    [done|].
  apply threaded_insert; [done|].
  apply fresh_thread_snoc_post; [|done]. by apply threaded_default.
Qed.

Lemma lookup_parent_Some (blog target : string) (db : store) (parent : doc) :
  lookup_parent blog target db = Some parent →
  ∃ docs, db !! blog = Some docs ∧ parent ∈ docs ∧ permalink parent = target.
Proof.
  unfold lookup_parent. destruct (db !! blog) as [docs|]; [|done].
  intros ([i d] & Hfind & ->)%fmap_Some.
  apply find_permalink_Some in Hfind as (Hi & Hperm & _).
  exists docs. split; [done|]. split; [|done].
  by eapply list_elem_of_lookup_2.
Qed.

Lemma process_comment_threaded (line : string) (db : store) :
  threaded db → fresh_timestamp line db →
  threaded (fst (process_comment line db)).
Proof.
  intros Hdb Hnew.
  destruct (decide (4 ≤ length (Py.split " " line 3))) as [Hlen|Hlen];
    [|by rewrite process_comment_malformed by lia].
  destruct (lookup_parent (field 3 1 line) (field 3 2 line) db)
    as [parent|] eqn:Hparent; [|by rewrite process_comment_rejected].
  destruct (process_comment_accepted line db parent Hlen Hparent)
    as (c & -> & Htype & _ & Hperm & Hts & Hpar).
  apply lookup_parent_Some in Hparent as (docs & Hdocs & Hin & Htarget).
  apply threaded_insert; [done|]. rewrite Hdocs. simpl.
  apply (fresh_thread_snoc_comment docs c parent);
    [by eapply Hdb|done|congruence|].
  intros d Hd. rewrite Hperm, Hts. by eapply Hnew.
Qed.

Lemma process_delete_threaded (line : string) (db : store) :
  threaded db → threaded (fst (process_delete line db)).
Proof.
  intros Hdb. unfold process_delete. destruct (_ <? _); [done|].
  destruct (db !! Py.item _ 1) as [docs|] eqn:Hdocs; [|done].
  destruct (find_permalink _ docs) as [[i d]|] eqn:Hfind; [|done].
  apply find_permalink_Some in Hfind as (Hi & _ & _).
  apply threaded_insert; [done|].
  apply fresh_thread_mark_deleted; [by eapply Hdb|done].
Qed.

Lemma main_step_threaded (fuel : nat) (raw : string) (db db' : store)
    (o : output) :
  threaded db →
  (command raw = "comment" → fresh_timestamp (Py.strip raw) db) →
  main_step fuel raw db = Some (db', o) →
  threaded db'.
Proof.
  intros Hdb Hnew. unfold main_step, command, field in *.
  destruct (Py.strip raw) as [|c line] eqn:Hline; [by intros [= <- _]|].
  repeat case_decide.
  - intros [= Heq]. replace db' with (fst (process_post (String c line) db))
      by by rewrite Heq.
    by apply process_post_threaded.
  - intros [= Heq]. replace db' with (fst (process_comment (String c line) db))
      by by rewrite Heq.
    apply process_comment_threaded; [done|]. by apply Hnew.
  - intros [= Heq]. replace db' with (fst (process_delete (String c line) db))
      by by rewrite Heq.
    by apply process_delete_threaded.
  - by intros ->%process_show_store.
  - intros [= Heq]. replace db' with (fst (process_find (String c line) db))
      by by rewrite Heq.
    unfold process_find. destruct (_ <? _); [done|].
    destruct (db !! _); [|done]. by destruct (get_posts_and_comments _ db).
  - by intros [= <- _].
Qed.

Lemma reachable_fresh_threaded (db : store) : reachable_fresh db → threaded db.
Proof.
  induction 1 as [|fuel raw db db' o _ IH Hnew Hstep];
    [apply threaded_empty|]. by eapply main_step_threaded.
Qed.


(** ** An accepted comment among the replies of its parent *)

Lemma foldl_seq_lines_prefix {A} (f : A → option (list string))
    (a out : list string) (l : list A) :
  foldl (λ acc x, seq_lines acc (f x)) (Some a) l = Some out →
  ∃ rest, out = a ++ rest.
Proof.
  revert a. induction l as [|x l IH]; intros a; simpl.
  { intros [= <-]. exists []. by rewrite app_nil_r. }
  destruct (f x) as [y|]; [|by rewrite foldl_seq_lines_None].
  intros [rest ->]%IH. exists (y ++ rest). by rewrite <-app_assoc.
Qed.

(** The lines of every iteration of a loop that returns are in its output,
    in one piece. *)
Lemma foldl_seq_lines_elem {A} (f : A → option (list string))
    (a out : list string) (l : list A) (x : A) :
  foldl (λ acc x, seq_lines acc (f x)) (Some a) l = Some out →
  x ∈ l →
  ∃ y before after, f x = Some y ∧ out = before ++ y ++ after.
Proof.
  revert a. induction l as [|x' l IH]; intros a; [by intros _ ?%elem_of_nil|].
  simpl. destruct (f x') as [y'|] eqn:Hx'; [|by rewrite foldl_seq_lines_None].
  intros Hout [->|Hx]%elem_of_cons.
  - destruct (foldl_seq_lines_prefix _ _ _ _ Hout) as [rest ->].
    exists y', a, rest. split; [done|]. by rewrite <-app_assoc.
  - by eapply IH.
Qed.

(** When the replies of a parent are rendered, each of them is there at the
    indentation of the call, followed by its own replies one level
    deeper. *)
Lemma print_comments_child (fuel : nat) (parent : option string)
    (comments_by_parent : gmap (option string) (list doc)) (indent : nat)
    (children : list doc) (c : doc) (out : list string) :
  print_comments (S fuel) parent comments_by_parent indent = Some out →
  comments_by_parent !! parent = Some children →
  c ∈ children →
  ∃ before replies after,
    print_comments fuel (Some (permalink c)) comments_by_parent (indent + 1)
    = Some replies
    ∧ out = before ++ comment_lines (Py.repeat "  " indent) c ++ replies
              ++ after.
Proof.
  simpl. intros Hout Hchildren Hc. rewrite Hchildren in Hout.
  destruct (foldl_seq_lines_elem _ _ _ _ c Hout Hc)
    as (y & before & after & Hy & ->).
  destruct (print_comments fuel _ _ _) as [replies|]; [|done].
  simpl in Hy. injection Hy as <-.
  by exists before, replies, after.
Qed.

(** ** Fresh threads: every comment is rendered under its parent *)

Lemma segment_refl (x : list string) : segment x x.
Proof. exists [], []. by rewrite app_nil_r. Qed.

Lemma segment_trans (x y z : list string) :
  segment x y → segment y z → segment x z.
Proof.
  intros (b1 & a1 & ->) (b2 & a2 & ->).
  exists (b2 ++ b1), (a1 ++ a2). by rewrite <-!app_assoc.
Qed.

Lemma segment_app_r (x y : list string) : segment y (x ++ y).
Proof. exists x, []. by rewrite app_nil_r. Qed.

Lemma segment_app_l (x y : list string) : segment x (x ++ y).
Proof. by exists [], y. Qed.

Section rendered.

Context (docs : list doc) (Hfresh : fresh_thread docs).
Context (fuel : nat) (header lines : list string).

Let comments_by_parent : gmap (option string) (list doc) :=
  group_by_parent (sort_by timestamp (filter (λ d, type d = comment) docs)).

Context (Hshow :
  foldl (λ acc p, seq_lines acc (show_post fuel comments_by_parent p))
    (Some header)
    (sort_by_reverse timestamp (filter (λ d, type d = post) docs))
  = Some lines).

Lemma post_rendered (p : doc) :
  p ∈ docs → type p = post →
  ∃ replies, rendered comments_by_parent lines 0 p replies.
Proof using Hshow.
  intros Hp Htype.
  destruct (foldl_seq_lines_elem _ _ _ _ p Hshow)
    as (y & before & after & Hy & Hlines).
  { rewrite sort_by_reverse_perm. by apply list_elem_of_filter. }
  unfold show_post in Hy.
  destruct (print_comments fuel _ _ 1) as [replies|] eqn:Hreplies; [|done].
  unfold seq_lines in Hy. injection Hy as <-.
  exists replies. split; [by exists fuel|].
  unfold head_lines. rewrite Htype.
  eapply segment_trans; [apply (segment_app_l _ [ "" ])|].
  by exists before, after.
Qed.

Lemma comment_in_group (c d : doc) :
  c ∈ docs → type c = comment → parent_permalink c = Some (permalink d) →
  ∃ children,
    comments_by_parent !! Some (permalink d) = Some children ∧ c ∈ children.
Proof.
  intros Hc Htype Hparent. unfold comments_by_parent, group_by_parent.
  rewrite foldl_group_step_lookup, lookup_empty. simpl.
  assert (c ∈ filter (λ c0, parent_permalink c0 = Some (permalink d))
                (sort_by timestamp (filter (λ d, type d = comment) docs)))
    as Hin.
  { apply list_elem_of_filter. split; [done|]. rewrite sort_by_perm.
    by apply list_elem_of_filter. }
  destruct (filter _ (sort_by _ _)) as [|x children];
    [by apply elem_of_nil in Hin|].
  by exists (x :: children).
Qed.

(** A comment that answers a rendered document is rendered in the replies of
    that document, one level deeper. *)
Lemma reply_rendered (c d : doc) (indent : nat) (replies_d : list string) :
  c ∈ docs → type c = comment → parent_permalink c = Some (permalink d) →
  rendered comments_by_parent lines indent d replies_d →
  ∃ replies_c,
    rendered comments_by_parent replies_d (indent + 1) c replies_c
    ∧ rendered comments_by_parent lines (indent + 1) c replies_c.
Proof.
  intros Hc Htype Hparent [[fuel_d Hd] Hseg].
  destruct (comment_in_group c d Hc Htype Hparent) as (children & Hg & Hin).
  destruct fuel_d as [|fuel_c]; [done|].
  destruct (print_comments_child _ _ _ _ _ c _ Hd Hg Hin)
    as (before & replies_c & after & Hreplies & ->).
  exists replies_c.
  assert (segment (head_lines (indent + 1) c ++ replies_c)
            (before ++ comment_lines (Py.repeat "  " (indent + 1)) c
               ++ replies_c ++ after)) as Hin_d.
  { unfold head_lines. rewrite Htype. exists before, after.
    by rewrite <-app_assoc. }
  split; (split; [by exists fuel_c|]); [done|].
  eapply segment_trans; [exact Hin_d|].
  eapply segment_trans; [apply segment_app_r|exact Hseg].
Qed.

(** Every document of the blog is rendered. *)
Lemma doc_rendered (i : nat) (d : doc) :
  docs !! i = Some d →
  ∃ indent replies, rendered comments_by_parent lines indent d replies.
Proof using Hfresh Hshow.
  revert d. induction (lt_wf i) as [i _ IH]. intros d Hd.
  destruct (type d) eqn:Htype.
  - destruct (post_rendered d) as [replies ?];
      [by eapply list_elem_of_lookup_2|done|]. by exists 0, replies.
  - destruct (Hfresh i d Hd Htype) as [(j & p & Hj & Hp & Hparent) _].
    destruct (IH j Hj p Hp) as (indent & replies_p & Hrendered).
    destruct (reply_rendered d p indent replies_p) as (replies & _ & ?);
      [by eapply list_elem_of_lookup_2|done..|].
    by exists (indent + 1), replies.
Qed.

(** A comment of the blog is rendered directly under every document of the
    blog whose permalink it answers: in the replies of that document, one
    level deeper. *)
Lemma reply_nested (c parent : doc) :
  c ∈ docs → type c = comment →
  parent ∈ docs → parent_permalink c = Some (permalink parent) →
  ∃ indent replies_parent replies_c,
    rendered comments_by_parent lines indent parent replies_parent
    ∧ rendered comments_by_parent replies_parent (indent + 1) c replies_c.
Proof using Hfresh Hshow.
  intros Hc Htype [j Hparent]%list_elem_of_lookup Hanswers.
  destruct (doc_rendered j parent Hparent) as (indent & replies_p & Hrendered).
  destruct (reply_rendered c parent indent replies_p) as (replies & ? & _);
    [done..|].
  by exists indent, replies_p, replies.
Qed.

End rendered.

(** The lines that a show command of at least two fields prints are those
    of the loop over the posts of its blog. *)
Lemma process_show_lines (fuel : nat) (line : string) (db db' : store)
    (o : output) (docs : list doc) :
  2 ≤ length (Py.split " " line 1) →
  db !! Py.strip (field 1 1 line) = Some docs →
  process_show fuel line db = Some (db', o) →
  foldl (λ acc p,
           seq_lines acc
             (show_post fuel
                (group_by_parent
                   (sort_by timestamp (filter (λ d, type d = comment) docs)))
                p))
    (Some [ "in " +:+ Py.strip (field 1 1 line) +:+ ":"; "" ])
    (sort_by_reverse timestamp (filter (λ d, type d = post) docs))
  = Some (stdout o).
Proof.
  intros Hlen Hdocs. unfold process_show, get_posts_and_comments, field in *.
  destruct (Nat.ltb_spec (length (Py.split " " line 1)) 2) as [?|_]; [lia|].
  rewrite Hdocs. destruct (foldl _ _ _) as [lines|]; [|done].
  by intros [= _ <-].
Qed.


(** ** Comments whose timestamp is a permalink of the blog: the samples *)

Lemma db_self_eq :
  Sample.db_self = {[ "blog1" := [Sample.hello; Sample.self] ]}.
Proof. vm_compute. reflexivity. Qed.

Lemma db_late_eq :
  Sample.db_late
  = {[ "blog1" := [Sample.hello; Sample.self; Sample.late] ]}.
Proof. vm_compute. reflexivity. Qed.



(** ** Fresh threads: the samples *)



(** * Further properties of the program *)

(** ** strip *)

Lemma lstrip_idem (p : ascii → bool) (s : string) :
  Py.lstrip p (Py.lstrip p s) = Py.lstrip p s.
Proof.
  induction s as [|c s IH]; [done|]. simpl.
  destruct (p c) eqn:Hc; [done|]. simpl. by rewrite Hc.
Qed.

Lemma rstrip_idem (p : ascii → bool) (s : string) :
  Py.rstrip p (Py.rstrip p s) = Py.rstrip p s.
Proof.
  induction s as [|c s IH]; [done|]. simpl.
  destruct (Py.rstrip p s) as [|a r] eqn:Hr.
  - destruct (p c) eqn:Hc; [done|]. simpl. by rewrite Hc.
  - change (Py.rstrip p (String c (String a r)))
      with (match Py.rstrip p (String a r) with
            | EmptyString => if p c then EmptyString else String c EmptyString
            | r' => String c r'
            end).
    by rewrite IH.
Qed.

Lemma lstrip_rstrip (p : ascii → bool) (s : string) :
  Py.lstrip p (Py.rstrip p s) = Py.rstrip p (Py.lstrip p s).
Proof.
  induction s as [|c s IH]; [done|]. simpl.
  destruct (p c) eqn:Hc.
  - rewrite <-IH. destruct (Py.rstrip p s); [reflexivity|]. simpl.
    by rewrite Hc.
  - simpl. destruct (Py.rstrip p s); simpl; by rewrite Hc.
Qed.

Lemma strip_rstrip (s : string) :
  Py.strip (Py.rstrip Py.isspace s) = Py.strip s.
Proof. unfold Py.strip. by rewrite lstrip_rstrip, rstrip_idem. Qed.

Lemma strip_idem (s : string) : Py.strip (Py.strip s) = Py.strip s.
Proof.
  unfold Py.strip. by rewrite lstrip_rstrip, rstrip_idem, lstrip_idem.
Qed.

(** [rstrip] keeps what comes before a character that it keeps. *)
Lemma rstrip_app_keep (p : ascii → bool) (a : string) (c : ascii)
    (b : string) :
  p c = false →
  Py.rstrip p (a +:+ String c b) = a +:+ String c (Py.rstrip p b).
Proof.
  intros Hc. induction a as [|h a IH].
  - rewrite !append_nil_l. simpl. rewrite Hc. by destruct (Py.rstrip p b).
  - rewrite !append_cons. simpl. rewrite IH.
    by destruct a.
Qed.

Lemma free_of_rstrip (c : ascii) (p : ascii → bool) (s : string) :
  free_of c s → free_of c (Py.rstrip p s).
Proof.
  induction s as [|a s IH]; [done|]. simpl. intros [Ha Hs].
  destruct (Py.rstrip p s) eqn:Hr.
  - by destruct (p a).
  - split; [done|]. by apply IH.
Qed.

Lemma free_of_lstrip (c : ascii) (p : ascii → bool) (s : string) :
  free_of c s → free_of c (Py.lstrip p s).
Proof.
  induction s as [|a s IH]; [done|]. simpl. intros [Ha Hs].
  destruct (p a); [by apply IH|done].
Qed.

Lemma free_of_app (c : ascii) (s t : string) :
  free_of c (s +:+ t) ↔ free_of c s ∧ free_of c t.
Proof.
  induction s as [|a s IH]; [rewrite append_nil_l; simpl; tauto|].
  rewrite append_cons. simpl. rewrite IH. tauto.
Qed.

(** ** parse_quoted_string *)

Lemma upto_quote_app (t rest : string) :
  free_of Py.dquote t →
  Re.upto_quote (t +:+ String Py.dquote rest) = Some (t, rest).
Proof.
  induction t as [|a t IH]; intros Ht.
  - done.
  - destruct Ht as [Ha Ht]. rewrite append_cons. simpl.
    destruct (Ascii.eqb_spec a Py.dquote) as [?|_]; [done|].
    by rewrite IH.
Qed.

Lemma upto_quote_Some (s t rest : string) :
  Re.upto_quote s = Some (t, rest) →
  s = t +:+ String Py.dquote rest ∧ free_of Py.dquote t.
Proof.
  revert t. induction s as [|a s IH]; intros t; [done|]. simpl.
  destruct (Ascii.eqb_spec a Py.dquote) as [->|Hne].
  - by intros [= <- <-].
  - destruct (Re.upto_quote s) as [[content rest']|]; [|done].
    intros [= <- <-]. destruct (IH content eq_refl) as [-> ?].
    by rewrite append_cons.
Qed.

Lemma dot_star_free (s : string) :
  free_of Py.newline s → Re.dot_star s = s.
Proof.
  induction s as [|a s IH]; [done|]. simpl. intros [Ha Hs].
  destruct (Ascii.eqb_spec a Py.newline) as [?|_]; [done|]. by rewrite IH.
Qed.

(** The text between double quotes at the start of a line, and the rest of
    the line. *)
Lemma parse_quoted_text (t rest : string) :
  free_of Py.dquote t →
  free_of Py.newline rest →
  parse_quoted_string (quoted t +:+ rest) = (t, Py.strip rest).
Proof.
  intros Ht Hrest. unfold parse_quoted_string, quoted.
  rewrite append_cons, append_assoc, append_cons, append_nil_l.
  assert (Hstrip : Py.strip (String Py.dquote (t +:+ String Py.dquote rest))
                   = String Py.dquote
                       (t +:+ String Py.dquote (Py.rstrip Py.isspace rest))).
  { unfold Py.strip.
    change (Py.lstrip Py.isspace
              (String Py.dquote (t +:+ String Py.dquote rest)))
      with (String Py.dquote (t +:+ String Py.dquote rest)).
    rewrite <-append_cons, rstrip_app_keep by done. by rewrite append_cons. }
  rewrite Hstrip. simpl. rewrite upto_quote_app by done.
  rewrite dot_star_free by by apply free_of_rstrip.
  by rewrite strip_rstrip.
Qed.

(** X1: the text between double quotes at the start of a line comes back as
    it is, with the rest of the line stripped, when the text has no double
    quote and the rest has no line feed. *)
Theorem parse_quoted_string_quoted (t rest : string) :
  free_of Py.dquote t →
  free_of Py.newline rest →
  parse_quoted_string (quoted t +:+ rest) = (t, Py.strip rest).
Proof. apply parse_quoted_text. Qed.

Lemma parse_quoted_string_quoted_witness :
  parse_quoted_string (quoted "Hello World" +:+ "  1000 ")
  = ("Hello World", "1000").
Proof.
  rewrite (parse_quoted_string_quoted "Hello World" "  1000 ").
  - by vm_compute.
  - vm_compute. by repeat split.
  - vm_compute. by repeat split.
Defined.

(** X2: whatever the line, the rest that [parse_quoted_string] returns is
    stripped and its text has no double quote; either the text is empty and
    the rest is the stripped line, or the stripped line starts with the
    text between double quotes and the rest is what follows on that line. *)
Theorem parse_quoted_string_cases (line : string) :
  free_of Py.dquote (fst (parse_quoted_string line))
  ∧ Py.strip (snd (parse_quoted_string line)) = snd (parse_quoted_string line)
  ∧ (parse_quoted_string line = ("", Py.strip line)
     ∨ ∃ after,
         Py.strip line
         = quoted (fst (parse_quoted_string line)) +:+ after
         ∧ snd (parse_quoted_string line) = Py.strip (Re.dot_star after)).
Proof.
  unfold parse_quoted_string.
  destruct (Re.match_quoted (Py.strip line)) as [[g1 g2]|] eqn:Hmatch; simpl.
  - unfold Re.match_quoted in Hmatch.
    destruct (Py.strip line) as [|c s] eqn:Hline; [done|].
    destruct (Ascii.eqb_spec c Py.dquote) as [->|_]; [|done].
    destruct (Re.upto_quote s) as [[content after]|] eqn:Hquote; [|done].
    injection Hmatch as <- <-.
    apply upto_quote_Some in Hquote as [-> Hfree].
    split; [done|]. split; [apply strip_idem|]. right. exists after.
    split; [|done]. unfold quoted.
    by rewrite !append_cons, append_assoc, append_cons, append_nil_l.
  - split; [done|]. split; [apply strip_idem|]. by left.
Qed.

(** ** split *)

Lemma split_zero (sep : ascii) (s : string) : Py.split sep s 0 = [s].
Proof. by destruct s. Qed.

(** A word without the separator, then the separator: the word is the first
    field. *)
Lemma split_word (sep : ascii) (w s : string) (n : nat) :
  free_of sep w →
  Py.split sep (w +:+ String sep s) (S n) = w :: Py.split sep s n.
Proof.
  induction w as [|a w IH]; intros Hw.
  - rewrite append_nil_l. simpl. by rewrite Ascii.eqb_refl.
  - destruct Hw as [Ha Hw]. rewrite append_cons. simpl.
    destruct (Ascii.eqb_spec a sep) as [?|_]; [done|]. by rewrite IH.
Qed.

(** A split gives at least one field and at most one more than the bound. *)
Lemma split_length (sep : ascii) (s : string) (n : nat) :
  1 ≤ length (Py.split sep s n) ≤ S n.
Proof.
  revert n. induction s as [|a s IH]; intros [|n]; simpl; [lia..|].
  destruct (Ascii.eqb a sep).
  - simpl. specialize (IH n). lia.
  - specialize (IH (S n)). destruct (Py.split sep s (S n)); simpl in *; lia.
Qed.

(** Every field before the last possible one is free of the separator. *)
Lemma split_field_free (sep : ascii) (s : string) (n i : nat) :
  i < n → free_of sep (nth i (Py.split sep s n) "").
Proof.
  revert n i. induction s as [|a s IH]; intros [|n] i Hi; [lia| |lia|].
  - simpl. by destruct i as [|[|i]].
  - simpl. destruct (Ascii.eqb_spec a sep) as [->|Hne].
    + destruct i as [|i]; [done|]. simpl. apply IH. lia.
    + pose proof (IH (S n) i Hi) as Hfield.
      pose proof (IH (S n) 0 ltac:(lia)) as Hfirst.
      destruct (Py.split sep s (S n)) as [|w ws].
      * by destruct i as [|[|i]].
      * destruct i as [|i]; [by split|]. done.
Qed.

Lemma space_not_dquote : " "%char ≠ Py.dquote.
Proof. by vm_compute. Qed.

Lemma space_not_newline : " "%char ≠ Py.newline.
Proof. by vm_compute. Qed.

Lemma newline_not_dquote : Py.newline ≠ Py.dquote.
Proof. by vm_compute. Qed.

Lemma dquote_not_newline : Py.dquote ≠ Py.newline.
Proof. by vm_compute. Qed.

Lemma free_of_quoted (c : ascii) (s : string) :
  c ≠ Py.dquote → free_of c s → free_of c (quoted s).
Proof.
  intros Hc Hs. unfold quoted.
  change (Py.dquote ≠ c ∧ free_of c (s +:+ String Py.dquote "")).
  split; [congruence|].
  apply (free_of_app _ s (String Py.dquote "")). split; [done|].
  split; [congruence|done].
Qed.

(** ** The fields of a post line *)

Lemma rstrip_free_snoc (c : ascii) (s : string) :
  free_of c s → Py.rstrip (Ascii.eqb c) (s +:+ String c "") = s.
Proof.
  induction s as [|a s IH]; intros Hs.
  - rewrite append_nil_l. simpl. by rewrite Ascii.eqb_refl.
  - destruct Hs as [Ha Hs]. rewrite append_cons. simpl. rewrite IH by done.
    destruct s; [|done].
    by destruct (Ascii.eqb_spec c a) as [?|_]; [congruence|].
Qed.

Lemma strip_char_quoted (s : string) :
  free_of Py.dquote s → Py.strip_char Py.dquote (quoted s) = s.
Proof.
  intros Hs. unfold Py.strip_char, quoted.
  change (Py.lstrip (Ascii.eqb Py.dquote)
            (String Py.dquote (s +:+ String Py.dquote "")))
    with (Py.lstrip (Ascii.eqb Py.dquote) (s +:+ String Py.dquote "")).
  destruct s as [|a s]; [done|].
  rewrite append_cons.
  change (Py.lstrip (Ascii.eqb Py.dquote)
            (String a (s +:+ String Py.dquote "")))
    with (if Ascii.eqb Py.dquote a
          then Py.lstrip (Ascii.eqb Py.dquote) (s +:+ String Py.dquote "")
          else String a (s +:+ String Py.dquote "")).
  assert (Ascii.eqb Py.dquote a = false) as ->.
  { apply Ascii.eqb_neq. destruct Hs. congruence. }
  rewrite <-append_cons. by apply rstrip_free_snoc.
Qed.

Lemma parse_quoted_string_strip (s : string) :
  parse_quoted_string (Py.strip s) = parse_quoted_string s.
Proof. unfold parse_quoted_string. by rewrite strip_idem. Qed.

Lemma strip_space (s : string) : Py.strip (" " +:+ s) = Py.strip s.
Proof. done. Qed.

(** The text between double quotes after a space, on a rest that an earlier
    call has stripped. *)
Lemma parse_quoted_next (t rest : string) :
  free_of Py.dquote t →
  free_of Py.newline rest →
  parse_quoted_string (Py.strip (" " +:+ quoted t +:+ rest))
  = (t, Py.strip rest).
Proof.
  intros Ht Hrest. rewrite strip_space, parse_quoted_string_strip.
  by apply parse_quoted_text.
Qed.

Lemma free_of_newline_field (rest : string) (t : string) :
  free_of Py.newline t → free_of Py.newline rest →
  free_of Py.newline (" " +:+ quoted t +:+ rest).
Proof.
  intros Ht Hrest.
  change (" "%char ≠ Py.newline ∧ free_of Py.newline (quoted t +:+ rest)).
  split; [apply space_not_newline|].
  apply (free_of_app _ (quoted t) rest). split; [|done].
  apply free_of_quoted; [apply newline_not_dquote|done].
Qed.

Lemma post_line_fields (blog user title body tags at_time : string) :
  free_of " " blog → free_of " " user →
  Py.split " " (post_line blog user title body tags at_time) 3
  = [ "post"; blog; quoted user;
      quoted title +:+ " " +:+ quoted body +:+ " " +:+ quoted tags +:+ " "
        +:+ at_time ].
Proof.
  intros Hblog Huser.
  change (post_line blog user title body tags at_time)
    with ("post" +:+ String " "
            (blog +:+ String " "
               (quoted user +:+ String " "
                  (quoted title +:+ " " +:+ quoted body +:+ " "
                     +:+ quoted tags +:+ " " +:+ at_time)))).
  rewrite split_word by by repeat split.
  rewrite split_word by done.
  rewrite split_word by (apply free_of_quoted; [apply space_not_dquote|done]).
  by rewrite split_zero.
Qed.

(** X3: a post line written from its fields stores a post with these fields:
    the blog and the user have no space, the quoted fields no double quote,
    the fields after the title no line feed, and the timestamp no
    whitespace around it. *)
Theorem post_line_stored (blog user title body tags at_time : string)
    (db : store) :
  free_of " " blog → free_of " " user → free_of Py.dquote user →
  free_of Py.dquote title →
  free_of Py.dquote body → free_of Py.newline body →
  free_of Py.dquote tags → free_of Py.newline tags →
  free_of Py.newline at_time → Py.strip at_time = at_time →
  process_post (post_line blog user title body tags at_time) db
  = (append_doc blog
       {| type := post; blogname := blog; userName := user;
          title := Some title; body := body;
          permalink := blog +:+ "." +:+ Re.sub_nonalnum title;
          timestamp := at_time;
          tags := match tags with
                  | EmptyString => None
                  | _ => Some (Py.strip <$> Py.split_all "," tags)
                  end;
          parent_permalink := None; deleted_by := None; deleted_at := None |}
       db, silent).
Proof.
  intros Hblog Huser Huserq Htitle Hbody Hbodyn Htags Htagsn Htime Hstrip.
  unfold process_post. rewrite post_line_fields by done.
  cbn [length Nat.ltb Nat.leb Py.item nth].
  rewrite strip_char_quoted by done.
  rewrite parse_quoted_text; [|done|].
  2:{ apply free_of_newline_field; [done|].
      apply free_of_newline_field; [done|].
      split; [apply space_not_newline|done]. }
  rewrite parse_quoted_next; [|done|].
  2:{ apply free_of_newline_field; [done|].
      split; [apply space_not_newline|done]. }
  rewrite parse_quoted_next; [|done|split; [apply space_not_newline|done]].
  by rewrite strip_space, Hstrip.
Qed.

Lemma post_line_stored_witness :
  process_post
    (post_line "blog1" "alice" "Hello World" "First post" "a, b" "1000") ∅
  = (append_doc "blog1"
       {| type := post; blogname := "blog1"; userName := "alice";
          title := Some "Hello World"; body := "First post";
          permalink := "blog1.Hello_World"; timestamp := "1000";
          tags := Some ["a"; "b"];
          parent_permalink := None; deleted_by := None; deleted_at := None |}
       ∅, silent).
Proof.
  rewrite (post_line_stored "blog1" "alice" "Hello World" "First post" "a, b"
             "1000" ∅).
  - by vm_compute.
  - vm_compute. repeat split; discriminate.
  - vm_compute. repeat split; discriminate.
  - vm_compute. repeat split; discriminate.
  - vm_compute. repeat split; discriminate.
  - vm_compute. repeat split; discriminate.
  - vm_compute. repeat split; discriminate.
  - vm_compute. repeat split; discriminate.
  - vm_compute. repeat split; discriminate.
  - vm_compute. repeat split; discriminate.
  - by vm_compute.
Defined.

(** ** The fields of a comment line and of a delete line *)

Lemma comment_line_fields (blog target user body at_time : string) :
  free_of " " blog → free_of " " target →
  Py.split " " (comment_line blog target user body at_time) 3
  = [ "comment"; blog; target;
      quoted user +:+ " " +:+ quoted body +:+ " " +:+ at_time ].
Proof.
  intros Hblog Htarget.
  change (comment_line blog target user body at_time)
    with ("comment" +:+ String " "
            (blog +:+ String " "
               (target +:+ String " "
                  (quoted user +:+ " " +:+ quoted body +:+ " "
                     +:+ at_time)))).
  rewrite split_word by by repeat split.
  rewrite split_word by done.
  rewrite split_word by done.
  by rewrite split_zero.
Qed.

(** X4: a comment line written from its fields is rejected, with the target
    in the error, when the blog has no document with the target permalink,
    and otherwise stores a comment with these fields.  The blog and the
    target have no space, the user (which may have spaces) and the body no
    double quote, the body and the timestamp no line feed, and the
    timestamp no whitespace around it. *)
Theorem comment_line_stored (blog target user body at_time : string)
    (db : store) :
  free_of " " blog → free_of " " target →
  free_of Py.dquote user →
  free_of Py.dquote body → free_of Py.newline body →
  free_of Py.newline at_time → Py.strip at_time = at_time →
  process_comment (comment_line blog target user body at_time) db
  = match lookup_parent blog target db with
    | Some _ =>
        (append_doc blog
           {| type := comment; blogname := blog; userName := user;
              title := None; body := body; permalink := at_time;
              timestamp := at_time; tags := None;
              parent_permalink := Some target;
              deleted_by := None; deleted_at := None |}
           db, silent)
    | None => (db, to_stderr (not_found target))
    end.
Proof.
  intros Hblog Htarget Huser Hbody Hbodyn Htime Hstrip.
  unfold process_comment. rewrite comment_line_fields by done.
  cbn [length Nat.ltb Nat.leb Py.item nth drop Py.join].
  rewrite parse_quoted_text; [|done|].
  2:{ apply free_of_newline_field; [done|].
      split; [apply space_not_newline|done]. }
  rewrite parse_quoted_next; [|done|split; [apply space_not_newline|done]].
  by rewrite strip_space, Hstrip.
Qed.

Lemma comment_line_stored_witness :
  process_comment
    (comment_line "blog1" "blog1.Hello_World" "bob the 2nd" "Nice!" "1001")
    Sample.db1
  = (append_doc "blog1"
       {| type := comment; blogname := "blog1"; userName := "bob the 2nd";
          title := None; body := "Nice!"; permalink := "1001";
          timestamp := "1001"; tags := None;
          parent_permalink := Some "blog1.Hello_World";
          deleted_by := None; deleted_at := None |}
       Sample.db1, silent).
Proof.
  rewrite (comment_line_stored "blog1" "blog1.Hello_World" "bob the 2nd"
             "Nice!" "1001" Sample.db1).
  - by vm_compute.
  - vm_compute. repeat split; discriminate.
  - vm_compute. repeat split; discriminate.
  - vm_compute. repeat split; discriminate.
  - vm_compute. repeat split; discriminate.
  - vm_compute. repeat split; discriminate.
  - vm_compute. repeat split; discriminate.
  - by vm_compute.
Defined.

Lemma delete_line_fields (blog target user at_time : string) :
  free_of " " blog → free_of " " target → free_of " " user →
  Py.split " " (delete_line blog target user at_time) 4
  = [ "delete"; blog; target; user; at_time ].
Proof.
  intros Hblog Htarget Huser.
  change (delete_line blog target user at_time)
    with ("delete" +:+ String " "
            (blog +:+ String " "
               (target +:+ String " " (user +:+ String " " at_time)))).
  rewrite split_word by by repeat split.
  rewrite !split_word by done.
  by rewrite split_zero.
Qed.

(** X5: a delete line written from its fields, none of which but the last
    has a space, marks the first document of the blog with the target
    permalink, with the user and the rest of the line, taken as it is, as
    the timestamp; without such a document it changes nothing and reports
    the target. *)
Theorem delete_line_applied (blog target user at_time : string) (db : store) :
  free_of " " blog → free_of " " target → free_of " " user →
  process_delete (delete_line blog target user at_time) db
  = match db !! blog with
    | Some docs =>
        match find_permalink target docs with
        | Some (i, d) =>
            (<[blog := <[i := mark_deleted user at_time d]> docs]> db, silent)
        | None => (db, to_stderr (not_found target))
        end
    | None => (db, to_stderr (not_found target))
    end.
Proof.
  intros Hblog Htarget Huser.
  unfold process_delete. by rewrite delete_line_fields by done.
Qed.

Lemma delete_line_applied_witness :
  fst (process_delete
         (delete_line "blog1" "blog1.Hello_World" "alice" "10 03 ")
         Sample.db1)
  = {[ "blog1" := [ mark_deleted "alice" "10 03 " Sample.hello ] ]}.
Proof.
  rewrite (delete_line_applied "blog1" "blog1.Hello_World" "alice" "10 03 "
             Sample.db1).
  - by vm_compute.
  - vm_compute. repeat split; discriminate.
  - vm_compute. repeat split; discriminate.
  - vm_compute. repeat split; discriminate.
Defined.

(** ** A post line whose fourth field is not quoted *)

Lemma parse_quoted_string_unquoted (s : string) :
  Re.match_quoted (Py.strip s) = None →
  parse_quoted_string s = ("", Py.strip s).
Proof. intros Hs. unfold parse_quoted_string. by rewrite Hs. Qed.

(** X6: when the fourth field of a post line does not start, after
    stripping, with a text between double quotes (as when the user name has
    a space), the post is stored all the same: with an empty title and
    body, no tags, the blog name and a dot as permalink, and the whole
    stripped field as timestamp. *)
Theorem post_unquoted_stored (line : string) (db : store) :
  4 ≤ length (Py.split " " line 3) →
  Re.match_quoted (Py.strip (field 3 3 line)) = None →
  process_post line db
  = (append_doc (field 3 1 line)
       {| type := post; blogname := field 3 1 line;
          userName := Py.strip_char Py.dquote (field 3 2 line);
          title := Some ""; body := "";
          permalink := field 3 1 line +:+ ".";
          timestamp := Py.strip (field 3 3 line);
          tags := None;
          parent_permalink := None; deleted_by := None; deleted_at := None |}
       db, silent).
Proof.
  intros Hlen Hnone. unfold process_post, field in *.
  destruct (Nat.ltb_spec (length (Py.split " " line 3)) 4) as [?|_]; [lia|].
  rewrite (parse_quoted_string_unquoted _ Hnone).
  rewrite parse_quoted_string_strip, (parse_quoted_string_unquoted _ Hnone).
  rewrite parse_quoted_string_strip, (parse_quoted_string_unquoted _ Hnone).
  done.
Qed.

Lemma post_unquoted_stored_witness :
  process_post post_spaced_user_line ∅
  = (append_doc "blog1"
       {| type := post; blogname := "blog1"; userName := "al";
          title := Some ""; body := "";
          permalink := "blog1.";
          timestamp := Py.strip (field 3 3 post_spaced_user_line);
          tags := None;
          parent_permalink := None; deleted_by := None; deleted_at := None |}
       ∅, silent).
Proof.
  rewrite (post_unquoted_stored post_spaced_user_line ∅).
  - by vm_compute.
  - vm_compute. lia.
  - by vm_compute.
Defined.

(** ** Lines with too few fields *)

(** The number of fields is one more than the number of separators, up to
    the bound. *)
Lemma split_length_count (sep : ascii) (s : string) (n : nat) :
  length (Py.split sep s n) = S (n `min` count_char sep s).
Proof.
  revert n. induction s as [|a s IH]; intros [|n]; simpl; [done..|].
  destruct (Ascii.eqb a sep).
  - simpl. by rewrite IH.
  - pose proof (IH (S n)) as Hlen.
    destruct (Py.split sep s (S n)); simpl in *; [lia|done].
Qed.

(** What a post command does: the error or one more post in its blog. *)
Lemma process_post_shape (line : string) (db : store) :
  (length (Py.split " " line 3) < 4
   ∧ process_post line db
     = (db, to_stderr "Error: Invalid post command format"))
  ∨ (4 ≤ length (Py.split " " line 3)
     ∧ ∃ p, process_post line db = (append_doc (field 3 1 line) p db, silent)
            ∧ type p = post ∧ blogname p = field 3 1 line
            ∧ parent_permalink p = None
            ∧ deleted_by p = None ∧ deleted_at p = None).
Proof.
  unfold process_post, field.
  destruct (Nat.ltb_spec (length (Py.split " " line 3)) 4) as [?|?];
    [by left|right]. split; [done|].
  destruct (parse_quoted_string _) as [title1 rest1].
  destruct (parse_quoted_string rest1) as [body1 rest2].
  destruct (parse_quoted_string rest2) as [tags1 timestamp1].
  by eexists.
Qed.

Lemma append_doc_lookup (blog : string) (d : doc) (db : store) :
  append_doc blog d db !! blog = Some (default [] (db !! blog) ++ [d]).
Proof. unfold append_doc. by rewrite lookup_insert_eq. Qed.

Lemma append_doc_lookup_ne (blog other : string) (d : doc) (db : store) :
  other ≠ blog → append_doc blog d db !! other = db !! other.
Proof. intros Hne. unfold append_doc. by rewrite lookup_insert_ne. Qed.

(** X7: a post command is rejected exactly when its line has fewer than
    three spaces, and then nothing changes; every other line, whatever it
    holds, adds one undeleted post at the end of the blog that its second
    field names, keeps the documents that were there and the other blogs,
    and prints nothing. *)
Theorem post_rejected_iff_few_spaces (line : string) (db : store) :
  (count_char " " line < 3 →
   process_post line db
   = (db, to_stderr "Error: Invalid post command format"))
  ∧ (3 ≤ count_char " " line →
     ∃ p,
       process_post line db = (append_doc (field 3 1 line) p db, silent)
       ∧ type p = post
       ∧ deleted_by p = None
       ∧ append_doc (field 3 1 line) p db !! field 3 1 line
         = Some (default [] (db !! field 3 1 line) ++ [p])
       ∧ ∀ blog, blog ≠ field 3 1 line →
           append_doc (field 3 1 line) p db !! blog = db !! blog).
Proof.
  pose proof (split_length_count " " line 3) as Hlen.
  destruct (process_post_shape line db)
    as [[Hfew Hrun]|[Hmany (p & Hrun & Htype & _ & _ & Hdel & _)]].
  - split; [done|]. intros ?. lia.
  - split; [intros ?; lia|]. intros _. exists p.
    split; [done|]. split; [done|]. split; [done|].
    split; [apply append_doc_lookup|].
    intros blog Hne. by apply append_doc_lookup_ne.
Qed.

Lemma post_rejected_iff_few_spaces_witness :
  process_post "post blog1 alice" Sample.db1
  = (Sample.db1, to_stderr "Error: Invalid post command format")
  ∧ ∃ p,
      process_post "post   " Sample.db1 = (append_doc "" p Sample.db1, silent)
      ∧ type p = post.
Proof.
  destruct (post_rejected_iff_few_spaces "post blog1 alice" Sample.db1)
    as [Hfew _].
  destruct (post_rejected_iff_few_spaces "post   " Sample.db1)
    as [_ Hmany].
  split.
  - apply Hfew. vm_compute. lia.
  - destruct Hmany as (p & Hrun & Htype & _); [vm_compute; lia|].
    exists p. by split.
Defined.

(** ** What one command does to the store and to the two streams *)

Lemma process_comment_shape (line : string) (db : store) :
  (∃ msg, process_comment line db = (db, to_stderr msg))
  ∨ ∃ c, process_comment line db = (append_doc (field 3 1 line) c db, silent)
         ∧ type c = comment.
Proof.
  destruct (decide (4 ≤ length (Py.split " " line 3))) as [Hlen|Hlen].
  - destruct (lookup_parent (field 3 1 line) (field 3 2 line) db)
      as [parent|] eqn:Hparent.
    + right. destruct (process_comment_accepted line db parent Hlen Hparent)
        as (c & Hrun & Htype & _). by exists c.
    + left. eexists. by apply process_comment_rejected.
  - left. eexists. apply process_comment_malformed. lia.
Qed.

Lemma process_delete_shape (line : string) (db : store) :
  (∃ msg, process_delete line db = (db, to_stderr msg))
  ∨ ∃ docs i d,
      db !! field 4 1 line = Some docs
      ∧ find_permalink (field 4 2 line) docs = Some (i, d)
      ∧ process_delete line db
        = (<[field 4 1 line :=
               <[i := mark_deleted (field 4 3 line) (field 4 4 line) d]> docs]>
             db, silent).
Proof.
  unfold process_delete, field. destruct (_ <? _); [left; by eexists|].
  destruct (db !! Py.item _ 1) as [docs|] eqn:Hdocs; [|left; by eexists].
  destruct (find_permalink _ docs) as [[i d]|] eqn:Hfind;
    [|left; by eexists].
  right. by exists docs, i, d.
Qed.

Lemma process_show_shape (fuel : nat) (line : string) (db db' : store)
    (o : output) :
  process_show fuel line db = Some (db', o) →
  db' = db ∧ ((∃ msg, o = to_stderr msg) ∨ ∃ lines, o = to_stdout lines).
Proof.
  unfold process_show. destruct (_ <? _).
  { intros [= <- <-]. split; [done|]. left. by eexists. }
  destruct (get_posts_and_comments _ db) as [posts comments_by_parent].
  destruct (foldl _ _ posts) as [lines|]; [|done].
  intros [= <- <-]. split; [done|]. right. by eexists.
Qed.

Lemma process_find_shape (line : string) (db : store) :
  (∃ msg, process_find line db = (db, to_stderr msg))
  ∨ ∃ lines, process_find line db = (db, to_stdout lines).
Proof.
  unfold process_find. destruct (_ <? _); [left; by eexists|].
  right. destruct (db !! _); [|by eexists].
  destruct (get_posts_and_comments _ db). by eexists.
Qed.

(** What [main] does with one line. *)
Lemma main_step_cases (fuel : nat) (raw : string) (db : store) :
  (Py.strip raw = "" ∧ main_step fuel raw db = Some (db, silent))
  ∨ (command raw = "post"
     ∧ main_step fuel raw db = Some (process_post (Py.strip raw) db))
  ∨ (command raw = "comment"
     ∧ main_step fuel raw db = Some (process_comment (Py.strip raw) db))
  ∨ (command raw = "delete"
     ∧ main_step fuel raw db = Some (process_delete (Py.strip raw) db))
  ∨ (command raw = "show"
     ∧ main_step fuel raw db = process_show fuel (Py.strip raw) db)
  ∨ (command raw = "find"
     ∧ main_step fuel raw db = Some (process_find (Py.strip raw) db))
  ∨ (Py.strip raw ≠ ""
     ∧ (command raw ∉ [ "post"; "comment"; "delete"; "show"; "find" ])
     ∧ main_step fuel raw db
       = Some (db, to_stderr ("Error: Unknown command: " +:+ command raw))).
Proof.
  unfold main_step, command, field.
  destruct (Py.strip raw) as [|c line] eqn:Hline; [by left|].
  right. repeat case_decide; [tauto..|].
  do 5 right. split; [done|]. split; [|done].
  rewrite !elem_of_cons, elem_of_nil. tauto.
Qed.



(** X9: [main] strips the line first, so whitespace around a line changes
    nothing and a blank line does nothing; a line whose first field is, in
    lower case, none of the five commands changes nothing and reports that
    field, in lower case, as unknown. *)
Theorem main_step_strip_unknown (fuel : nat) (raw : string) (db : store) :
  main_step fuel (Py.strip raw) db = main_step fuel raw db
  ∧ (Py.strip raw = "" → main_step fuel raw db = Some (db, silent))
  ∧ (Py.strip raw ≠ "" →
     command raw ∉ [ "post"; "comment"; "delete"; "show"; "find" ] →
     main_step fuel raw db
     = Some (db, to_stderr ("Error: Unknown command: " +:+ command raw))).
Proof.
  split; [unfold main_step; by rewrite strip_idem|].
  split; [unfold main_step; by intros ->|].
  intros Hline Hunknown.
  destruct (main_step_cases fuel raw db)
    as [[Hs _]|[[Hc _]|[[Hc _]|[[Hc _]|[[Hc _]|[[Hc _]|(_ & _ & Hrun)]]]]]];
    [done|destruct Hunknown; rewrite Hc; set_solver..|done].
Qed.

Lemma main_step_strip_unknown_witness :
  main_step 0 "  Bogus blog1  " Sample.db1
  = Some (Sample.db1, to_stderr "Error: Unknown command: bogus").
Proof.
  destruct (main_step_strip_unknown 0 "  Bogus blog1  " Sample.db1)
    as (_ & _ & Hunknown).
  rewrite Hunknown; [by vm_compute|by vm_compute|].
  vm_compute. intros Hin.
  repeat (apply elem_of_cons in Hin as [Hin|Hin]; [discriminate Hin|]).
  by apply elem_of_nil in Hin.
Defined.

(** ** The bound on the depth of the recursion *)

Lemma foldl_seq_lines_mono {A} (f g : A → option (list string))
    (acc : option (list string)) (l : list A) (out : list string) :
  (∀ x y, f x = Some y → g x = Some y) →
  foldl (λ acc x, seq_lines acc (f x)) acc l = Some out →
  foldl (λ acc x, seq_lines acc (g x)) acc l = Some out.
Proof.
  intros Hfg. revert acc. induction l as [|x l IH]; intros acc; [done|].
  simpl. destruct acc as [a|]; [|by rewrite foldl_seq_lines_None].
  destruct (f x) as [y|] eqn:Hx; [|by rewrite foldl_seq_lines_None].
  rewrite (Hfg x y Hx). apply IH.
Qed.

Lemma print_comments_mono (fuel fuel' : nat) (parent : option string)
    (comments_by_parent : gmap (option string) (list doc)) (indent : nat)
    (out : list string) :
  fuel ≤ fuel' →
  print_comments fuel parent comments_by_parent indent = Some out →
  print_comments fuel' parent comments_by_parent indent = Some out.
Proof.
  revert fuel' parent indent out.
  induction fuel as [|fuel IH]; intros fuel' parent indent out Hle; [done|].
  destruct fuel' as [|fuel']; [lia|]. simpl.
  destruct (comments_by_parent !! parent) as [children|]; [|done].
  apply foldl_seq_lines_mono. intros c y.
  destruct (print_comments fuel _ _ _) as [replies|] eqn:Hreplies; [|done].
  by rewrite (IH fuel' _ _ replies ltac:(lia) Hreplies).
Qed.

Lemma process_show_mono (fuel fuel' : nat) (line : string) (db : store)
    (r : store * output) :
  fuel ≤ fuel' →
  process_show fuel line db = Some r → process_show fuel' line db = Some r.
Proof.
  intros Hle. unfold process_show. destruct (_ <? _); [done|].
  destruct (get_posts_and_comments _ db) as [posts comments_by_parent].
  destruct (foldl _ _ posts) as [lines|] eqn:Hlines; [|done].
  intros [= <-].
  rewrite (foldl_seq_lines_mono (show_post fuel comments_by_parent)
             (show_post fuel' comments_by_parent) _ _ lines); [done| |done].
  intros p y. unfold show_post.
  destruct (print_comments fuel _ _ _) as [replies|] eqn:Hreplies; [|done].
  by rewrite (print_comments_mono fuel fuel' _ _ _ replies Hle Hreplies).
Qed.

Lemma main_step_mono (fuel fuel' : nat) (raw : string) (db : store)
    (r : store * output) :
  fuel ≤ fuel' →
  main_step fuel raw db = Some r → main_step fuel' raw db = Some r.
Proof.
  intros Hle. unfold main_step. destruct (Py.strip raw); [done|].
  repeat case_decide; try done. by apply process_show_mono.
Qed.



(** ** Runs that return *)





(** ** Documents stay *)

Lemma same_document_refl (d : doc) : same_document d d.
Proof. unfold same_document. repeat split; auto. Qed.

Lemma same_document_trans (d1 d2 d3 : doc) :
  same_document d1 d2 → same_document d2 d3 → same_document d1 d3.
Proof.
  unfold same_document.
  intros (? & ? & ? & ? & ? & ? & ? & ? & Hdel1 & Hbody1)
         (? & ? & ? & ? & ? & ? & ? & ? & Hdel2 & Hbody2).
  repeat split; try congruence; [auto|].
  destruct Hbody2 as [Hb2|?]; [|by right].
  destruct Hbody1 as [Hb1|?]; [left; congruence|right; auto].
Qed.

Lemma same_document_mark_deleted (user at_time : string) (d : doc) :
  same_document d (mark_deleted user at_time d).
Proof. unfold same_document. simpl. repeat split; eauto. Qed.

Lemma grows_refl (db : store) : grows db db.
Proof.
  intros blog docs Hdocs. exists docs. split; [done|]. split; [done|].
  intros i d Hd. exists d. split; [done|]. apply same_document_refl.
Qed.

Lemma grows_trans (db1 db2 db3 : store) :
  grows db1 db2 → grows db2 db3 → grows db1 db3.
Proof.
  intros H12 H23 blog docs1 Hdocs1.
  destruct (H12 blog docs1 Hdocs1) as (docs2 & Hdocs2 & Hlen2 & Hsame2).
  destruct (H23 blog docs2 Hdocs2) as (docs3 & Hdocs3 & Hlen3 & Hsame3).
  exists docs3. split; [done|]. split; [lia|].
  intros i d1 Hd1. destruct (Hsame2 i d1 Hd1) as (d2 & Hd2 & H1).
  destruct (Hsame3 i d2 Hd2) as (d3 & Hd3 & H2).
  exists d3. split; [done|]. by eapply same_document_trans.
Qed.

Lemma grows_append_doc (blog : string) (d : doc) (db : store) :
  grows db (append_doc blog d db).
Proof.
  intros blog' docs Hdocs. destruct (decide (blog' = blog)) as [->|Hne].
  - rewrite append_doc_lookup, Hdocs. simpl. eexists. split; [done|].
    split; [rewrite length_app; lia|].
    intros i x Hx. exists x. split; [|apply same_document_refl].
    by apply lookup_app_l_Some.
  - rewrite append_doc_lookup_ne by done. exists docs.
    split; [done|]. split; [done|]. intros i x Hx. exists x.
    split; [done|]. apply same_document_refl.
Qed.

Lemma grows_mark_deleted (blog user at_time : string) (docs : list doc)
    (i : nat) (d : doc) (db : store) :
  db !! blog = Some docs → docs !! i = Some d →
  grows db (<[blog := <[i := mark_deleted user at_time d]> docs]> db).
Proof.
  intros Hdocs Hd blog' docs' Hdocs'.
  destruct (decide (blog' = blog)) as [->|Hne].
  - rewrite lookup_insert_eq. simplify_eq. eexists. split; [done|].
    split; [by rewrite length_insert|].
    intros j x Hx. destruct (decide (j = i)) as [->|Hji].
    + simplify_eq. exists (mark_deleted user at_time d).
      split; [|apply same_document_mark_deleted].
      apply list_lookup_insert_eq. by eapply lookup_lt_Some.
    + exists x. split; [|apply same_document_refl].
      by rewrite list_lookup_insert_ne.
  - rewrite lookup_insert_ne by done. exists docs'.
    split; [done|]. split; [done|]. intros j x Hx. exists x.
    split; [done|]. apply same_document_refl.
Qed.

Lemma main_step_grows (fuel : nat) (raw : string) (db db' : store)
    (o : output) :
  main_step fuel raw db = Some (db', o) → grows db db'.
Proof.
  destruct (main_step_cases fuel raw db)
    as [[_ ->]|[[_ ->]|[[_ ->]|[[_ ->]|[[_ ->]|[[_ ->]|(_ & _ & ->)]]]]]].
  - intros [= <- _]. apply grows_refl.
  - destruct (process_post_shape (Py.strip raw) db)
      as [[_ ->]|[_ (p & -> & _)]]; intros [= <- _];
      [apply grows_refl|apply grows_append_doc].
  - destruct (process_comment_shape (Py.strip raw) db)
      as [[msg ->]|(c & -> & _)]; intros [= <- _];
      [apply grows_refl|apply grows_append_doc].
  - destruct (process_delete_shape (Py.strip raw) db)
      as [[msg ->]|(docs & i & d & Hdocs & Hfind & ->)]; intros [= <- _];
      [apply grows_refl|].
    apply find_permalink_Some in Hfind as (Hd & _).
    by apply grows_mark_deleted.
  - intros [-> _]%process_show_shape. apply grows_refl.
  - destruct (process_find_shape (Py.strip raw) db)
      as [[msg ->]|[lines ->]]; intros [= <- _]; apply grows_refl.
  - intros [= <- _]. apply grows_refl.
Qed.

(** X13: no run removes or moves a document.  After any run every blog is
    still there, with every document at the index it had: same type, blog,
    user, title, permalink, timestamp, tags and parent; a document that was
    deleted stays deleted, and a body changes only by a deletion. *)
Theorem main_loop_grows (fuel : nat) (lines : list string) (db db' : store)
    (o : output) :
  main_loop fuel lines db = Some (db', o) → grows db db'.
Proof.
  revert db db' o. induction lines as [|raw lines IH]; intros db db' o; simpl.
  { intros [= <- _]. apply grows_refl. }
  destruct (main_step fuel raw db) as [[db1 o1]|] eqn:Hstep; [|done].
  destruct (main_loop fuel lines db1) as [[db2 o2]|] eqn:Hloop; [|done].
  intros [= <- _]. eapply grows_trans.
  - by eapply main_step_grows.
  - by eapply IH.
Qed.

Lemma main_loop_grows_witness :
  ∃ db' o,
    main_loop 5 [Sample.comment_thanks; Sample.delete_hello;
                 Sample.show_blog1] Sample.db2 = Some (db', o)
    ∧ grows Sample.db2 db'.
Proof.
  destruct (main_loop 5 [Sample.comment_thanks; Sample.delete_hello;
                         Sample.show_blog1] Sample.db2)
    as [[db' o]|] eqn:Hrun; [|by vm_compute in Hrun].
  exists db', o. split; [done|].
  exact (main_loop_grows 5 _ Sample.db2 db' o Hrun).
Defined.

(** ** The stores that commands build *)

Lemma parse_text_free (s : string) :
  free_of Py.dquote (fst (parse_quoted_string s)).
Proof.
  unfold parse_quoted_string, Re.match_quoted.
  destruct (Py.strip s) as [|c r]; [done|].
  destruct (Ascii.eqb c Py.dquote); [|done].
  destruct (Re.upto_quote r) as [[content rest]|] eqn:Hquote; [|done].
  by apply upto_quote_Some in Hquote as [_ ?].
Qed.

Lemma parse_rest_stripped (s : string) :
  Py.strip (snd (parse_quoted_string s)) = snd (parse_quoted_string s).
Proof.
  unfold parse_quoted_string.
  destruct (Re.match_quoted (Py.strip s)) as [[g1 g2]|]; apply strip_idem.
Qed.

Lemma process_post_new (line : string) (db : store) :
  4 ≤ length (Py.split " " line 3) →
  ∃ p, process_post line db = (append_doc (field 3 1 line) p db, silent)
       ∧ type p = post
       ∧ well_formed (field 3 1 line) p.
Proof.
  intros Hlen. unfold process_post, field.
  destruct (Nat.ltb_spec (length (Py.split " " line 3)) 4) as [?|_]; [lia|].
  destruct (parse_quoted_string (Py.item _ 3)) as [title1 rest1] eqn:H1.
  destruct (parse_quoted_string rest1) as [body1 rest2] eqn:H2.
  destruct (parse_quoted_string rest2) as [tags1 timestamp1] eqn:H3.
  eexists. split; [reflexivity|]. split; [done|].
  unfold well_formed. simpl. split; [done|]. split.
  { split.
    - exists title1. split; [done|]. split; [|done].
      pose proof (parse_text_free (Py.item (Py.split " " line 3) 3)) as Hfree.
      by rewrite H1 in Hfree.
    - split; [done|]. destruct tags1 as [|c tags1]; [done|].
      intros [= Hnil]. apply fmap_nil_inv in Hnil.
      pose proof (split_length "," (String c tags1)
                    (String.length (String c tags1))) as Hsplit.
      unfold Py.split_all in Hnil. rewrite Hnil in Hsplit. simpl in Hsplit.
      lia. }
  split.
  { pose proof (parse_rest_stripped rest2) as Hs. by rewrite H3 in Hs. }
  split.
  { pose proof (parse_text_free rest1) as Hfree. by rewrite H2 in Hfree. }
  split; [by split; intros ?%is_Some_None|]. by intros ?%is_Some_None.
Qed.

Lemma process_comment_new (line : string) (db : store) (parent : doc) :
  4 ≤ length (Py.split " " line 3) →
  lookup_parent (field 3 1 line) (field 3 2 line) db = Some parent →
  ∃ c, process_comment line db = (append_doc (field 3 1 line) c db, silent)
       ∧ type c = comment
       ∧ parent_permalink c = Some (field 3 2 line)
       ∧ well_formed (field 3 1 line) c.
Proof.
  intros Hlen Hparent. unfold process_comment.
  destruct (Nat.ltb_spec (length (Py.split " " line 3)) 4) as [?|_]; [lia|].
  destruct (parse_quoted_string (Py.join _ _)) as [username rest] eqn:H1.
  destruct (parse_quoted_string rest) as [comment_body timestamp1] eqn:H2.
  unfold field in *. rewrite Hparent.
  eexists. split; [reflexivity|]. split; [done|]. split; [done|].
  unfold well_formed. simpl. split; [done|]. split; [by repeat split|].
  split.
  { pose proof (parse_rest_stripped rest) as Hs. by rewrite H2 in Hs. }
  split.
  { pose proof (parse_text_free rest) as Hfree. by rewrite H2 in Hfree. }
  split; [by split; intros ?%is_Some_None|]. by intros ?%is_Some_None.
Qed.

Lemma well_formed_mark_deleted (blog user at_time : string) (d : doc) :
  well_formed blog d → well_formed blog (mark_deleted user at_time d).
Proof.
  unfold well_formed. simpl.
  intros (Hblog & Hshape & Hstrip & _ & _ & _).
  split; [done|]. split; [done|]. split; [done|].
  split; [by destruct (type d); vm_compute; repeat split|].
  split; [by split; eauto|]. done.
Qed.

Lemma answers_earlier_snoc_post (docs : list doc) (p : doc) :
  answers_earlier docs → type p = post → answers_earlier (docs ++ [p]).
Proof.
  intros Hdocs Hp i c Hi Hc.
  assert (docs !! i = Some c) as Hi'.
  { apply lookup_app_Some in Hi as [?|[_ Hlast]]; [done|].
    apply list_lookup_singleton_Some in Hlast as [_ <-]. congruence. }
  destruct (Hdocs i c Hi' Hc) as (j & d & Hj & Hd & Hpd).
  exists j, d. split; [done|]. split; [|done]. by apply lookup_app_l_Some.
Qed.

Lemma answers_earlier_snoc_comment (docs : list doc) (c parent : doc) :
  answers_earlier docs → parent ∈ docs →
  parent_permalink c = Some (permalink parent) →
  answers_earlier (docs ++ [c]).
Proof.
  intros Hdocs Hparent Hpc i c' Hi Hc'.
  apply lookup_app_Some in Hi as [Hi|[Hge Hlast]].
  - destruct (Hdocs i c' Hi Hc') as (j & d & Hj & Hd & Hpd).
    exists j, d. split; [done|]. split; [|done]. by apply lookup_app_l_Some.
  - apply list_lookup_singleton_Some in Hlast as [Hi <-].
    apply list_elem_of_lookup in Hparent as [j Hj].
    pose proof (lookup_lt_Some _ _ _ Hj).
    exists j, parent. split; [lia|]. split; [|done].
    by apply lookup_app_l_Some.
Qed.

Lemma answers_earlier_mark_deleted (docs : list doc) (i : nat) (d : doc)
    (user at_time : string) :
  answers_earlier docs → docs !! i = Some d →
  answers_earlier (<[i := mark_deleted user at_time d]> docs).
Proof.
  intros Hdocs Hd.
  assert (Hlookup : ∀ j x,
            <[i := mark_deleted user at_time d]> docs !! j = Some x →
            ∃ y, docs !! j = Some y ∧ type x = type y
                 ∧ parent_permalink x = parent_permalink y).
  { intros j x. destruct (decide (i = j)) as [<-|Hne].
    - rewrite list_lookup_insert_eq by by eapply lookup_lt_Some.
      intros [= <-]. by exists d.
    - rewrite list_lookup_insert_ne by done. intros ?. by exists x. }
  assert (Hback : ∀ j y,
            docs !! j = Some y →
            ∃ x, <[i := mark_deleted user at_time d]> docs !! j = Some x
                 ∧ permalink x = permalink y).
  { intros j y Hy. destruct (decide (i = j)) as [<-|Hne].
    - rewrite list_lookup_insert_eq by by eapply lookup_lt_Some.
      exists (mark_deleted user at_time d). by simplify_eq.
    - rewrite list_lookup_insert_ne by done. by exists y. }
  intros j c Hj Hc.
  destruct (Hlookup j c Hj) as (c0 & Hc0 & Htype & Hpar).
  destruct (Hdocs j c0 Hc0 ltac:(congruence)) as (k & p & Hk & Hp & Hpp).
  destruct (Hback k p Hp) as (p' & Hp' & Hperm').
  exists k, p'. split; [done|]. split; [done|]. congruence.
Qed.

Lemma sound_append (blog : string) (d : doc) (db : store) :
  sound db → well_formed blog d →
  (answers_earlier (default [] (db !! blog)) →
   answers_earlier (default [] (db !! blog) ++ [d])) →
  sound (append_doc blog d db).
Proof.
  intros Hdb Hd Hanswers blog' docs'.
  destruct (decide (blog' = blog)) as [->|Hne].
  - rewrite append_doc_lookup. intros [= <-].
    split; [by destruct (default [] (db !! blog))|].
    destruct (db !! blog) as [docs|] eqn:Hdocs; simpl in *.
    + destruct (Hdb blog docs Hdocs) as (_ & Hwf & Hans). split; [|auto].
      intros x [?|Hx%list_elem_of_singleton]%elem_of_app; [auto|by subst].
    + split; [intros x Hx%list_elem_of_singleton; by subst|].
      apply Hanswers. intros i c Hi. by rewrite lookup_nil in Hi.
  - rewrite append_doc_lookup_ne by done. apply Hdb.
Qed.

(** The stores that commands build are sound. *)
Lemma reachable_sound (db : store) : reachable db → sound db.
Proof.
  induction 1 as [|fuel raw db db' o _ IH Hstep].
  { intros blog docs Hdocs. by rewrite lookup_empty in Hdocs. }
  revert Hstep.
  destruct (main_step_cases fuel raw db)
    as [[_ ->]|[[_ ->]|[[_ ->]|[[_ ->]|[[_ ->]|[[_ ->]|(_ & _ & ->)]]]]]].
  - by intros [= <- _].
  - destruct (process_post_shape (Py.strip raw) db)
      as [[_ ->]|[Hlen _]]; [by intros [= <- _]|].
    destruct (process_post_new (Py.strip raw) db Hlen)
      as (p & -> & Htype & Hwf).
    intros [= <- _]. apply sound_append; [done..|].
    intros Hans. by apply answers_earlier_snoc_post.
  - destruct (decide (4 ≤ length (Py.split " " (Py.strip raw) 3)))
      as [Hlen|Hlen];
      [|rewrite process_comment_malformed by lia; by intros [= <- _]].
    destruct (lookup_parent (field 3 1 (Py.strip raw))
                (field 3 2 (Py.strip raw)) db) as [parent|] eqn:Hparent;
      [|rewrite process_comment_rejected by done; by intros [= <- _]].
    destruct (process_comment_new (Py.strip raw) db parent Hlen Hparent)
      as (c & -> & Htype & Hpar & Hwf).
    intros [= <- _]. apply sound_append; [done..|].
    apply lookup_parent_Some in Hparent as (docs & Hdocs & Hin & Htarget).
    rewrite Hdocs. simpl. intros Hans.
    apply (answers_earlier_snoc_comment docs c parent); [done..|congruence].
  - destruct (process_delete_shape (Py.strip raw) db)
      as [[msg ->]|(docs & i & d & Hdocs & Hfind & ->)];
      [by intros [= <- _]|].
    intros [= <- _].
    apply find_permalink_Some in Hfind as (Hd & _).
    destruct (IH _ _ Hdocs) as (Hne & Hwf & Hans).
    intros blog docs'.
    destruct (decide (blog = field 4 1 (Py.strip raw))) as [->|Hother];
      [|rewrite lookup_insert_ne by done; apply IH].
    rewrite lookup_insert_eq. intros [= <-].
    split.
    { intros Hnil. apply (f_equal length) in Hnil.
      rewrite length_insert in Hnil. by destruct docs. }
    split.
    + intros x [j Hx]%list_elem_of_lookup.
      destruct (decide (j = i)) as [->|Hji].
      * rewrite list_lookup_insert_eq in Hx by by eapply lookup_lt_Some.
        injection Hx as <-. apply well_formed_mark_deleted, Hwf.
        by eapply list_elem_of_lookup_2.
      * rewrite list_lookup_insert_ne in Hx by done.
        apply Hwf. by eapply list_elem_of_lookup_2.
    + by apply answers_earlier_mark_deleted.
  - by intros [-> _]%process_show_shape.
  - destruct (process_find_shape (Py.strip raw) db)
      as [[msg ->]|[lines ->]]; by intros [= <- _].
  - by intros [= <- _].
Qed.

(** X14: in every store that commands build, no blog is empty and every
    document has the shape of its type, under the name of its blog: a post
    has a title without double quote, the permalink of its blog and title,
    no parent and tags that are absent or not empty; a comment has no title
    and no tags, its timestamp as permalink, and a parent.  Timestamps are
    stripped, bodies have no double quote, and a document has both deletion
    stamps or none, with the marker of its type as body when it has
    them. *)
Theorem reachable_well_formed (db : store) (blog : string) (docs : list doc) :
  reachable db → db !! blog = Some docs →
  docs ≠ [] ∧ ∀ d, d ∈ docs → well_formed blog d.
Proof.
  intros Hdb%reachable_sound Hdocs.
  destruct (Hdb blog docs Hdocs) as (? & ? & _). done.
Qed.

(** X15: in every store that commands build, every comment answers a
    document of its blog that was inserted before it, whether or not the
    permalinks are fresh. *)
Theorem reachable_answers_earlier (db : store) (blog : string)
    (docs : list doc) (i : nat) (c : doc) :
  reachable db → db !! blog = Some docs →
  docs !! i = Some c → type c = comment →
  ∃ j d, j < i ∧ docs !! j = Some d
         ∧ parent_permalink c = Some (permalink d).
Proof.
  intros Hdb%reachable_sound Hdocs.
  destruct (Hdb blog docs Hdocs) as (_ & _ & Hans). apply Hans.
Qed.

Lemma reachable_db3 : reachable Sample.db3.
Proof.
  apply (reachable_step 0 Sample.comment_thanks Sample.db2 _ silent).
  - apply (reachable_step 0 Sample.comment_nice Sample.db1 _ silent).
    + apply (reachable_step 0 Sample.post_hello ∅ _ silent);
        [constructor|by vm_compute].
    + by vm_compute.
  - by vm_compute.
Qed.

Lemma reachable_well_formed_witness :
  [Sample.hello; Sample.nice; Sample.thanks] ≠ []
  ∧ ∀ d, d ∈ [Sample.hello; Sample.nice; Sample.thanks] →
         well_formed "blog1" d.
Proof.
  apply (reachable_well_formed Sample.db3 "blog1").
  - exact reachable_db3.
  - rewrite db3_eq. reflexivity.
Defined.

Lemma reachable_answers_earlier_witness :
  ∃ j d, j < 2
         ∧ [Sample.hello; Sample.nice; Sample.thanks] !! j = Some d
         ∧ parent_permalink Sample.thanks = Some (permalink d).
Proof.
  apply (reachable_answers_earlier Sample.db3 "blog1"
           [Sample.hello; Sample.nice; Sample.thanks] 2 Sample.thanks).
  - exact reachable_db3.
  - rewrite db3_eq. reflexivity.
  - reflexivity.
  - reflexivity.
Defined.
